(** * A shallow embedding of [src/crypto/tron.ts]

    The module is a thin client of two collaborators: a wallet library
    ([@cobo/tron]) and the TronGrid HTTP API.  Its own code is unit
    conversion, a guard on the balance and the order of the calls.

    - JavaScript numbers are binary64 floats ([PrimFloat.float]); the
      arithmetic the source does on them ([*], [| 0], [parseInt],
      [parseFloat]) is the IEEE arithmetic of the kernel's floats.
    - [bignumber.js] values are exact: a rational, an infinity or NaN.
    - Every [await] is a bind of a program tree whose nodes are the calls
      to the collaborators; a handler, arbitrary in the theorems, answers
      them, threads the state of the outside world and may fail. *)

From Stdlib Require Import ZArith QArith Qabs Qround List String Ascii Bool Lia Lqa.
From Stdlib Require Import PrimFloat SpecFloat FloatOps FloatAxioms.
From Stdlib Require Import DecimalString DecimalN.
Import ListNotations.
Set Warnings "-inexact-float,-register-all".

Open Scope string_scope.
Open Scope Z_scope.

(* ================================================================= *)
(** ** JavaScript numbers *)

Module JS.

Definition number := float.

(** [10^k] for any integer [k]. *)
Definition pow10 (k : Z) : Q :=
  if 0 <=? k then inject_Z (10 ^ k) else 1 # Z.to_pos (10 ^ (- k)).

(** The double nearest to a rational, ties to even: the rounding the
    language applies when it reads a decimal text as a number. *)
Definition nearest (q : Q) : number :=
  match Qnum q with
  | Z0 => zero
  | Zpos n =>
      SF2Prim (SFdiv prec emax (S754_finite false n 0) (S754_finite false (Qden q) 0))
  | Zneg n =>
      SF2Prim (SFdiv prec emax (S754_finite true n 0) (S754_finite false (Qden q) 0))
  end.

Definition of_Z (z : Z) : number := nearest (inject_Z z).

(** [Math.pow(10, n)] for an integer [n]: the double nearest to [10^n],
    which is [10^n] itself for [0 <= n <= 22]. *)
Definition Math_pow10 (n : Z) : number := nearest (pow10 n).

(** The integer part of a number, toward zero; [0] for NaN and the
    infinities (the first steps of [ToInt32]). *)
Definition truncate (x : number) : Z :=
  match Prim2SF x with
  | S754_finite s m e => cond_Zopp s (Z.shiftl (Zpos m) e)
  | _ => 0
  end.

(** [ToInt32]: the integer part modulo [2^32], read as a signed 32-bit
    integer.  [x | 0] is [ToInt32 x]. *)
Definition ToInt32 (x : number) : Z :=
  let int32bit := truncate x mod 2 ^ 32 in
  if 2 ^ 31 <=? int32bit then int32bit - 2 ^ 32 else int32bit.

(** *** [Number::toString]: the shortest decimal that reads back *)

(** The exact value [m * 2^e] of a finite double. *)
Definition magnitude (m : positive) (e : Z) : Q :=
  if 0 <=? e then inject_Z (Zpos m * 2 ^ e) else Zpos m # Z.to_pos (2 ^ (- e)).

(** The largest [p] with [10^p <= v], searched downward from [p]. *)
Fixpoint log10_floor (fuel : nat) (p : Z) (v : Q) : Z :=
  match fuel with
  | O => p
  | S fuel' => if Qle_bool (pow10 p) v then p else log10_floor fuel' (p - 1) v
  end.

(** An upper bound of [floor (log10 (m * 2^e))], at most two above it:
    [30103 / 100000] is just over [log10 2]. *)
Definition log10_bound (m : positive) (e : Z) : Z :=
  (Z.pos (digits2_pos m) + e) * 30103 / 100000 + 1.

(** With [k] digits, [k = 1, 2, ...]: the two [k]-digit decimals around
    [v]; the first [k] at which one of them rounds to [x] is the digit
    count, and of two that do the closer one wins, the even one on a
    tie.  Seventeen digits always suffice. *)
Fixpoint shortest (fuel : nat) (k : Z) (x : number) (v : Q) (p : Z) : Q :=
  match fuel with
  | O => v
  | S fuel' =>
      let t := p - k + 1 in
      let s := Qfloor (v / pow10 t)%Q in
      let lo := (inject_Z s * pow10 t)%Q in
      let hi := (inject_Z (s + 1) * pow10 t)%Q in
      match PrimFloat.eqb (nearest lo) x, PrimFloat.eqb (nearest hi) x with
      | true, true =>
          match (v - lo ?= hi - v)%Q with
          | Lt => lo
          | Gt => hi
          | Eq => if Z.even s then lo else hi
          end
      | true, false => lo
      | false, true => hi
      | false, false => shortest fuel' (k + 1) x v p
      end
  end.

(** The value of the decimal text [String(x)] of a finite number. *)
Definition decimal_value (x : number) : option Q :=
  match Prim2SF x with
  | S754_zero _ => Some 0%Q
  | S754_finite s m e =>
      let v := magnitude m e in
      let d := Qred (shortest 17 1 (abs x) v (log10_floor 4 (log10_bound m e) v)) in
      Some (if s then Qopp d else d)
  | _ => None
  end.

(** *** [parseInt] of a text, no radix given *)

(** Leading white space is skipped (here the ASCII one), then a sign,
    then [0x] or [0X] selects base sixteen; the digits that follow are
    read as far as they go and their value is rounded to a double. *)

Definition is_space (c : ascii) : bool :=
  match c with
  | " "%char | "009"%char | "010"%char | "011"%char | "012"%char | "013"%char => true
  | _ => false
  end.

Fixpoint trim_start (s : string) : string :=
  match s with
  | String c s' => if is_space c then trim_start s' else s
  | EmptyString => s
  end.

Definition digit_of (radix : Z) (c : ascii) : option Z :=
  let n := Z.of_nat (nat_of_ascii c) in
  let d :=
    if (48 <=? n) && (n <=? 57) then n - 48
    else if (97 <=? n) && (n <=? 122) then n - 87
    else if (65 <=? n) && (n <=? 90) then n - 55
    else radix in
  if d <? radix then Some d else None.

(** The value of the longest prefix of digits; [None] when it is empty. *)
Fixpoint digits (radix : Z) (s : string) (acc : option Z) : option Z :=
  match s with
  | EmptyString => acc
  | String c s' =>
      match digit_of radix c with
      | Some d =>
          digits radix s' (Some (radix * match acc with Some a => a | None => 0 end + d))
      | None => acc
      end
  end.

Definition parseInt (text : string) : number :=
  let s := trim_start text in
  let '(neg, s) :=
    match s with
    | String "-" r => (true, r)
    | String "+" r => (false, r)
    | _ => (false, s)
    end in
  let '(radix, s) :=
    match s with
    | String "0" (String "x" r) => (16, r)
    | String "0" (String "X" r) => (16, r)
    | _ => (10, s)
    end in
  match digits radix s None with
  | None => nan
  | Some 0 => if neg then neg_zero else zero
  | Some n => of_Z (if neg then - n else n)
  end.

(** A value is falsy in a condition when it is absent or the empty text. *)
Definition truthy (v : option string) : bool :=
  match v with
  | Some s => negb (s =? "")%string
  | None => false
  end.

End JS.

(* ================================================================= *)
(** ** bignumber.js *)

Module BigNumber.

(** An arbitrary-precision decimal.  A finite value is kept as a reduced
    fraction; the sign of a zero is not tracked. *)
Inductive t : Type :=
| NaN
| Infinity (neg : bool)
| Finite (q : Q).

(** The library's default configuration. *)
Definition DECIMAL_PLACES : Z := 20.

(** [new BigNumber(x)] of a number reads its decimal text [String(x)]. *)
Definition of_number (x : JS.number) : t :=
  match Prim2SF x with
  | S754_nan => NaN
  | S754_infinity s => Infinity s
  | _ => match JS.decimal_value x with Some q => Finite q | None => NaN end
  end.

Definition is_neg (q : Q) : bool := Qnum q <? 0.

(** [ROUND_HALF_UP] at [DECIMAL_PLACES]: to the nearest neighbour, away
    from zero when halfway. *)
Definition round_half_up (q : Q) : Q :=
  let scaled := (Qabs q * JS.pow10 DECIMAL_PLACES)%Q in
  let n := Qfloor (scaled + (1 # 2))%Q in
  let r := (inject_Z n / JS.pow10 DECIMAL_PLACES)%Q in
  Qred (if is_neg q then Qopp r else r).

Definition div (x y : t) : t :=
  match x, y with
  | NaN, _ | _, NaN => NaN
  | Infinity _, Infinity _ => NaN
  | Infinity s, Finite b => Infinity (xorb s (is_neg b))
  | Finite _, Infinity _ => Finite 0
  | Finite a, Finite b =>
      if Qeq_bool b 0 then
        if Qeq_bool a 0 then NaN else Infinity (is_neg a)
      else Finite (round_half_up (a / b))
  end.

Definition minus (x y : t) : t :=
  match x, y with
  | NaN, _ | _, NaN => NaN
  | Infinity s, Infinity s' => if Bool.eqb s s' then NaN else Infinity s
  | Infinity s, Finite _ => Infinity s
  | Finite _, Infinity s => Infinity (negb s)
  | Finite a, Finite b => Finite (Qred (a - b))
  end.

(** [compare]: nothing when either side is NaN. *)
Definition compare (x y : t) : option comparison :=
  match x, y with
  | NaN, _ | _, NaN => None
  | Infinity s, Infinity s' =>
      Some (if Bool.eqb s s' then Eq else if s then Lt else Gt)
  | Infinity s, Finite _ => Some (if s then Lt else Gt)
  | Finite _, Infinity s => Some (if s then Gt else Lt)
  | Finite a, Finite b => Some (a ?= b)%Q
  end.

Definition gte (x y : t) : bool :=
  match compare x y with
  | Some Gt | Some Eq => true
  | _ => false
  end.

Definition lt (x y : t) : bool :=
  match compare x y with
  | Some Lt => true
  | _ => false
  end.

(** [toFixed()] with no argument spells the value out in full, in plain
    notation; the text is carried as the value it spells. *)
Definition toFixed (x : t) : t := x.

(** [parseFloat] of such a text: the nearest double. *)
Definition parseFloat (text : t) : JS.number :=
  match text with
  | NaN => nan
  | Infinity s => if s then neg_infinity else infinity
  | Finite q => JS.nearest q
  end.

End BigNumber.

(* ================================================================= *)
(** ** Data *)

Module Tron.

(** JSON data, as [response.json()] yields it. *)
Inductive json : Type :=
| JNull
| JBool (b : bool)
| JNumber (x : JS.number)
| JString (s : string)
| JArray (items : list json)
| JObject (fields : list (string * json)).

(** An object of JSON data, its keys in enumeration order. *)
Definition object := list (string * json).

(** A value handed to the wallet library or stored in a result: JSON
    data or a [BigNumber] instance. *)
Inductive value : Type :=
| Plain (j : json)
| Big (b : BigNumber.t).

Record Wallet := { address : string; privateKey : string }.
Record Amount := { sun : JS.number; trx : JS.number }.
Record LatestBlock := { hash : string; timestamp : JS.number; number : JS.number }.

(** The wallet object of [@cobo/tron], by what its getters return. *)
Record TronWallet := { getAddress : string; getTronPrivateKey : string }.

(** A signed transaction of the wallet library; only [hex] is read. *)
Record Transaction := { hex : string }.

(** *** Responses of TronGrid, at the shape the caller destructures *)

(** [{blockID, block_header: {raw_data: {timestamp, number}}}] *)
Record NowBlock := {
  blockID : string;
  block_header_raw_data_timestamp : JS.number;
  block_header_raw_data_number : JS.number }.

(** One element of [trc20]: an object from contract address to amount. *)
Definition TokenEntry := list (string * string).

(** One element of [data] of [v1/accounts/<address>], with the two
    fields the module reads: the balance in sun and the token list. *)
Record Account := { balance : JS.number; trc20 : list TokenEntry }.

(** [{data, success, error}] of the transaction listings; [error] is
    there when the listing failed. *)
Record Page := { data : list json; success : bool; error : option string }.

Inductive Shape : Type := NowBlockShape | AccountsShape | PageShape | ReceiptShape.

Definition payload (s : Shape) : Type :=
  match s with
  | NowBlockShape => NowBlock
  | AccountsShape => list Account
  | PageShape => Page
  | ReceiptShape => object
  end.

(** The second argument of [fetch].  [body] is the value whose JSON text
    is sent. *)
Record RequestInit := {
  method : string;
  body : option json;
  headers : list (string * option string) }.

(* ================================================================= *)
(** ** Programs *)

(** What a function of the module can fail with: an [Error] it throws
    itself, or a failure of a collaborator passed on untouched. *)
Inductive exn : Type :=
| Error (message : string)
| External (reason : string).

(** The calls that leave the module. *)
Inductive Event : Type -> Type :=
| GetEnv (name : string) : Event (option string)
| Fetch (shape : Shape) (link : string) (init : RequestInit) : Event (payload shape)
| FromTronPrivateKey (privateKey : string) : Event TronWallet
| GenerateTransaction (wallet : TronWallet) (to : string) (amount : value)
    (token : string) (latestBlock : LatestBlock) : Event Transaction
| TransferTRC20Token (wallet : TronWallet) (contractAddress to : string)
    (amount : value) (latestBlock : LatestBlock) : Event Transaction.

(** A program: a result, a throw, or a call and what follows on its
    answer.  [x <- p ;; q] is [const x = await p; q]. *)
Inductive Prog (A : Type) : Type :=
| Ret (a : A)
| Throw (e : exn)
| Vis {R : Type} (ev : Event R) (k : R -> Prog A).

Arguments Ret {A} a.
Arguments Throw {A} e.
Arguments Vis {A R} ev k.

Fixpoint bind {A B : Type} (p : Prog A) (f : A -> Prog B) : Prog B :=
  match p with
  | Ret a => f a
  | Throw e => Throw e
  | Vis ev k => Vis ev (fun r => bind (k r) f)
  end.

Definition perform {R : Type} (ev : Event R) : Prog R := Vis ev Ret.

Declare Scope prog_scope.
Delimit Scope prog_scope with prog.
Notation "x <- p ;; q" := (bind p (fun x => q))
  (at level 61, p at next level, right associativity) : prog_scope.
Open Scope prog_scope.

(* ================================================================= *)
(** ** The module *)

(** The derivation path of account [index].  An index is a child number
    of the key tree, a non-negative integer, and its text in the template
    is its decimal digits. *)
Definition getPath (index : N) : string :=
  "m/49'/194'/0'/0/" ++ NilEmpty.string_of_uint (N.to_uint index).

(** The default of a destructured parameter: [{network = 'mainnet'}]. *)
Definition or_mainnet (network : option string) : string :=
  match network with
  | Some n => n
  | None => "mainnet"
  end.

Definition getTronGridLink (network : option string) : Prog string :=
  let network := or_mainnet network in
  TRONGRID_API_KEY <- perform (GetEnv "TRONGRID_API_KEY") ;;
  let subdomain :=
    if (network =? "shasta")%string then "api.shasta"
    else if (network =? "mainnet")%string then "api"
    else network in
  if JS.truthy TRONGRID_API_KEY
  then Ret ("https://" ++ subdomain ++ ".trongrid.io")
  else Throw (Error "Please provide TRONGRID_API_KEY").

(** [fetch] and [response.json()] are one call, its answer read at
    [shape]. *)
Definition requestTronGrid (shape : Shape) (network : option string)
    (url method : string) (body : option json) : Prog (payload shape) :=
  TRONGRID_API_KEY <- perform (GetEnv "TRONGRID_API_KEY") ;;
  baseUrl <- getTronGridLink network ;;
  let link := baseUrl ++ "/" ++ url in
  perform (Fetch shape link
    {| method := method;
       body := body;
       headers := [("content-type", Some "application/json");
                   ("TRON-PRO-API-KEY", TRONGRID_API_KEY)] |}).

Definition getLatestBlock (network : option string) : Prog LatestBlock :=
  let network := or_mainnet network in
  r <- requestTronGrid NowBlockShape (Some network) "wallet/getnowblock" "get" None ;;
  Ret {| hash := blockID r;
         timestamp := block_header_raw_data_timestamp r;
         number := block_header_raw_data_number r |}.

Definition broadcastTransaction (network : option string) (transaction : Transaction)
    : Prog object :=
  let network := or_mainnet network in
  requestTronGrid ReceiptShape (Some network) "wallet/broadcasthex" "post"
    (Some (JObject [("transaction", JString (hex transaction))])).

Definition parseTrx (trx : JS.number) : JS.number :=
  JS.of_Z (JS.ToInt32 (trx * JS.Math_pow10 6)%float).

Definition sunToTrx (sun : JS.number) : JS.number :=
  let trx :=
    BigNumber.toFixed
      (BigNumber.div (BigNumber.of_number sun) (BigNumber.of_number (JS.Math_pow10 6))) in
  BigNumber.parseFloat trx.

Definition importTrxAddress (privateKey : string) : Prog Wallet :=
  wallet <- perform (FromTronPrivateKey privateKey) ;;
  Ret {| address := getAddress wallet; privateKey := getTronPrivateKey wallet |}.

Definition getTrxBalance (address : string) (network : option string) : Prog Amount :=
  let network := or_mainnet network in
  data <- requestTronGrid AccountsShape (Some network) ("v1/accounts/" ++ address) "get" None ;;
  match data with
  | [] => Ret {| sun := 0%float; trx := 0%float |}
  | account :: _ =>
      let sun := balance account in
      let trx := sunToTrx sun in
      Ret {| sun := sun; trx := trx |}
  end.

(** The [for] loop of [getTRC20Balance].  [Object.keys(token)[0]] is the
    first key of the entry and [token[key]] the amount stored under it. *)
Fixpoint scan_trc20 (contractAddress : string) (trc20 : list TokenEntry) : Amount :=
  match trc20 with
  | [] => {| sun := 0%float; trx := 0%float |}
  | token :: rest =>
      match token with
      | (tokenContractAddress, amount) :: _ =>
          if (tokenContractAddress =? contractAddress)%string then
            let sun := JS.parseInt amount in
            let trx :=
              BigNumber.toFixed
                (BigNumber.div (BigNumber.of_number sun)
                               (BigNumber.of_number (JS.Math_pow10 6))) in
            {| sun := sun; trx := BigNumber.parseFloat trx |}
          else scan_trc20 contractAddress rest
      | [] => scan_trc20 contractAddress rest
      end
  end.

Definition getTRC20Balance (address contractAddress : string) (decimals : Z)
    (network : option string) : Prog Amount :=
  let network := or_mainnet network in
  data <- requestTronGrid AccountsShape (Some network) ("v1/accounts/" ++ address) "get" None ;;
  match data with
  | [] => Ret {| sun := 0%float; trx := 0%float |}
  | account :: _ =>
      match trc20 account with
      | [] => Ret {| sun := 0%float; trx := 0%float |}
      | tokens => Ret (scan_trc20 contractAddress tokens)
      end
  end.

Definition sendTrx (privateKey to : string) (trx : JS.number) (network : option string)
    : Prog object :=
  let network := or_mainnet network in
  wallet <- perform (FromTronPrivateKey privateKey) ;;
  let address := getAddress wallet in
  let amount := parseTrx trx in
  latestBlock <- getLatestBlock (Some network) ;;
  bal <- getTrxBalance address (Some network) ;;
  let balance := sun bal in
  if BigNumber.gte (BigNumber.of_number amount) (BigNumber.of_number balance)
  then Throw (Error "Insufficient balance")
  else
    transaction <- perform
      (GenerateTransaction wallet to (Plain (JNumber amount)) "TRX" latestBlock) ;;
    broadcastTransaction (Some network) transaction.

(** [decimals] is the integer count of decimals of the token. *)
Definition sendTRC20Token (to contractAddress : string) (trx : JS.number)
    (privateKey : string) (decimals : Z) (network : option string) : Prog object :=
  let network := or_mainnet network in
  wallet <- perform (FromTronPrivateKey privateKey) ;;
  let address := getAddress wallet in
  let amount := (trx * JS.Math_pow10 decimals)%float in
  latestBlock <- getLatestBlock (Some network) ;;
  bal <- getTRC20Balance address contractAddress decimals (Some network) ;;
  let balance := sun bal in
  if BigNumber.gte (BigNumber.of_number amount) (BigNumber.of_number balance)
  then Throw (Error "Insufficient balance")
  else
    transaction <- perform
      (TransferTRC20Token wallet contractAddress to (Plain (JNumber amount)) latestBlock) ;;
    broadcastTransaction (Some network) transaction.

(** The message of [new Error(error)]: empty when [error] is missing. *)
Definition message_of (error : option string) : string :=
  match error with
  | Some m => m
  | None => ""
  end.

Definition getTrxTransactions (address : string) (network : option string)
    : Prog (list json) :=
  let network := or_mainnet network in
  let url := "v1/accounts/" ++ address ++ "/transactions" in
  r <- requestTronGrid PageShape (Some network) url "get" None ;;
  if negb (success r) then Throw (Error (message_of (error r)))
  else Ret (data r).

Definition getTrc20Transactions (address : string) (network : option string)
    : Prog (list json) :=
  let network := or_mainnet network in
  let url := "v1/accounts/" ++ address ++ "/transactions/trc20" in
  r <- requestTronGrid PageShape (Some network) url "get" None ;;
  if negb (success r) then Throw (Error (message_of (error r)))
  else Ret (data r).

(** [{...trx, amount}]: the fields of [trx], and [amount] stored under
    its key, in place when the key is there and last otherwise. *)
Fixpoint set_field (key : string) (v : value) (fields : list (string * value))
    : list (string * value) :=
  match fields with
  | [] => [(key, v)]
  | (k, old) :: rest =>
      if (k =? key)%string then (k, v) :: rest else (k, old) :: set_field key v rest
  end.

Definition with_amount (trx : object) (amount : value) : list (string * value) :=
  set_field "amount" amount (map (fun kv => (fst kv, Plain (snd kv))) trx).

Definition drainTrx (privateKey to : string) (network : option string)
    : Prog (list (string * value)) :=
  let network := or_mainnet network in
  wallet <- perform (FromTronPrivateKey privateKey) ;;
  let address := getAddress wallet in
  latestBlock <- getLatestBlock (Some network) ;;
  bal <- getTrxBalance address (Some network) ;;
  let amount :=
    BigNumber.minus (BigNumber.of_number (sun bal))
                    (BigNumber.of_number (JS.Math_pow10 6)) in
  transaction <- perform
    (GenerateTransaction wallet to (Big amount) "TRX" latestBlock) ;;
  trx <- broadcastTransaction (Some network) transaction ;;
  Ret (with_amount trx (Big amount)).

Definition drainTRC20Token (to contractAddress privateKey : string) (decimals : Z)
    (network : option string) (backer : option string) : Prog (list (string * value)) :=
  let network := or_mainnet network in
  wallet <- perform (FromTronPrivateKey privateKey) ;;
  let address := getAddress wallet in
  latestBlock <- getLatestBlock (Some network) ;;
  bal <- getTRC20Balance address contractAddress decimals (Some network) ;;
  let amount := sun bal in
  _ <- match backer with
       | Some key =>
           if JS.truthy backer then
             sender <- importTrxAddress privateKey ;;
             _ <- sendTrx key (Tron.address sender) 1%float (Some network) ;;
             Ret tt
           else Ret tt
       | None => Ret tt
       end ;;
  transaction <- perform
    (TransferTRC20Token wallet contractAddress to (Plain (JNumber amount)) latestBlock) ;;
  trx <- broadcastTransaction (Some network) transaction ;;
  Ret (with_amount trx (Plain (JNumber amount))).

End Tron.

Import Tron.
Open Scope prog_scope.

(* ================================================================= *)
(** ** Running a program against the outside world *)

(** A call that was made, whatever the type of its answer. *)
Inductive Call : Type :=
| Called {R : Type} (ev : Event R).

Inductive Outcome (A : Type) : Type :=
| Ok (a : A)
| Fail (e : exn).

Arguments Ok {A} a.
Arguments Fail {A} e.

(** How a run ends: its outcome, the state of the world it leaves and
    the calls it made, in order. *)
Record Run (World A : Type) : Type := MkRun {
  outcome : Outcome A;
  final : World;
  calls : list Call }.

Arguments MkRun {World A} outcome final calls.
Arguments outcome {World A} r.
Arguments final {World A} r.
Arguments calls {World A} r.

(** The same run, after the calls [t]. *)
Definition after {World A : Type} (t : list Call) (r : Run World A) : Run World A :=
  MkRun (outcome r) (final r) (t ++ calls r).

Section Semantics.

Variable World : Type.

(** The world answers a call or fails it, and moves on. *)
Variable handle : forall R : Type, Event R -> World -> (string + R) * World.

Fixpoint run {A : Type} (p : Prog A) (w : World) : Run World A :=
  match p with
  | Ret a => MkRun (Ok a) w []
  | Throw e => MkRun (Fail e) w []
  | Vis ev k =>
      match handle _ ev w with
      | (inl reason, w') => MkRun (Fail (External reason)) w' [Called ev]
      | (inr r, w') => after [Called ev] (run (k r) w')
      end
  end.

End Semantics.

Arguments run {World} handle {A} p w.

(** Which calls a program can make, and which errors it can throw
    itself, whatever the world answers. *)
Fixpoint calls_only {A : Type} (P : Call -> Prop) (p : Prog A) : Prop :=
  match p with
  | Ret _ => True
  | Throw _ => True
  | Vis ev k => P (Called ev) /\ forall r, calls_only P (k r)
  end.

Fixpoint throws_only {A : Type} (P : string -> Prop) (p : Prog A) : Prop :=
  match p with
  | Ret _ => True
  | Throw (Error m) => P m
  | Throw (External _) => True
  | Vis ev k => forall r, throws_only P (k r)
  end.

Definition is_generateTransaction (c : Call) : Prop :=
  match c with
  | Called (GenerateTransaction _ _ _ _ _) => True
  | _ => False
  end.

Definition is_transferTRC20Token (c : Call) : Prop :=
  match c with
  | Called (TransferTRC20Token _ _ _ _ _) => True
  | _ => False
  end.

(* ================================================================= *)
(** ** A small world to run the scenarios in *)

Module Mock.

Record world := {
  api_key : option string;
  accounts : list Account;
  page : Page;
  broadcasts : list string }.

Definition block : NowBlock :=
  {| blockID := "00000000000000c8";
     block_header_raw_data_timestamp := 1600000000000%float;
     block_header_raw_data_number := 200%float |}.

Definition receipt : object := [("result", JBool true); ("txid", JString "a1b2")].

Definition sent (b : option json) : string :=
  match b with
  | Some (JObject [(_, JString h)]) => h
  | _ => ""
  end.

(** Keys other than ["invalid"] import; every read of the chain answers
    from the record; a broadcast is logged in the world. *)
Definition handle (R : Type) (ev : Event R) (w : world) : (string + R) * world :=
  match ev in Event R return (string + R) * world with
  | GetEnv _ => (inr (api_key w), w)
  | Fetch shape _ init =>
      match shape return (string + payload shape) * world with
      | NowBlockShape => (inr block, w)
      | AccountsShape => (inr (accounts w), w)
      | PageShape => (inr (page w), w)
      | ReceiptShape =>
          (inr receipt,
           {| api_key := api_key w; accounts := accounts w; page := page w;
              broadcasts := broadcasts w ++ [sent (body init)] |})
      end
  | FromTronPrivateKey key =>
      if (key =? "invalid")%string then (inl "invalid private key", w)
      else (inr {| getAddress := "T" ++ key; getTronPrivateKey := key |}, w)
  | GenerateTransaction _ _ _ _ _ => (inr {| hex := "0a02" |}, w)
  | TransferTRC20Token _ _ _ _ _ => (inr {| hex := "0a03" |}, w)
  end.

Definition wallet (key : string) : TronWallet :=
  {| getAddress := "T" ++ key; getTronPrivateKey := key |}.

Definition latest : LatestBlock :=
  {| hash := "00000000000000c8"; timestamp := 1600000000000%float; number := 200%float |}.

Definition holding (balance : JS.number) (tokens : list TokenEntry) : world :=
  {| api_key := Some "key";
     accounts := [{| balance := balance; trc20 := tokens |}];
     page := {| data := []; success := true; error := None |};
     broadcasts := [] |}.

End Mock.

(** Reading a field of a result object. *)
Fixpoint get_field {V : Type} (key : string) (fields : list (string * V)) : option V :=
  match fields with
  | [] => None
  | (k, v) :: rest => if (k =? key)%string then Some v else get_field key rest
  end.

(** [Object.keys(token)[0]]. *)
Definition first_key (token : TokenEntry) : option string :=
  match token with
  | (k, _) :: _ => Some k
  | [] => None
  end.

(** The calls of the gateway: the configuration and the HTTP client. *)
Definition is_gateway (c : Call) : Prop :=
  match c with
  | Called (GetEnv _) => True
  | Called (Fetch _ _ _) => True
  | _ => False
  end.

Definition is_config_error (m : string) : Prop :=
  m = "Please provide TRONGRID_API_KEY".

Definition insufficient_balance : exn := Error "Insufficient balance".

Definition zero_amount : Amount := {| sun := 0%float; trx := 0%float |}.

(** An entry of [trc20] that is not for the contract asked for. *)
Definition other_contract (contractAddress : string) (token : TokenEntry) : Prop :=
  first_key token <> Some contractAddress.

(** A call that only reads: the configuration, or a GET without a body. *)
Definition is_read (c : Call) : Prop :=
  match c with
  | Called (GetEnv _) => True
  | Called (Fetch _ _ init) => method init = "get" /\ body init = None
  | _ => False
  end.

Definition config_error : exn := Error "Please provide TRONGRID_API_KEY".

Definition api_key_name : string := "TRONGRID_API_KEY".

(** Whether [k] whole coins, as base units, come back from the display
    amount and the conversion to base units. *)
Definition whole_coin_ok (k : Z) : bool :=
  JS.ToInt32 (sunToTrx (JS.of_Z (k * 1000000)) * 1000000)%float =? k * 1000000.

(* ================================================================= *)
(** ** Laws of running *)

Section RunLaws.

Variable World : Type.
Variable handle : forall R : Type, Event R -> World -> (string + R) * World.

Lemma after_nil (A : Type) (r : Run World A) : after [] r = r.
Proof. destruct r; reflexivity. Qed.

Lemma after_after (A : Type) (s t : list Call) (r : Run World A) :
  after s (after t r) = after (s ++ t) r.
Proof. unfold after; simpl. now rewrite app_assoc. Qed.

Lemma after_MkRun (A : Type) (s t : list Call) (o : Outcome A) (w : World) :
  after s (MkRun o w t) = MkRun o w (s ++ t).
Proof. reflexivity. Qed.

(** A bind runs its first part, and its second part from where the
    first one ended, unless the first one failed. *)
Lemma run_bind (A B : Type) (p : Prog A) (f : A -> Prog B) (w : World) :
  run handle (bind p f) w =
  match outcome (run handle p w) with
  | Ok a => after (calls (run handle p w)) (run handle (f a) (final (run handle p w)))
  | Fail e => MkRun (Fail e) (final (run handle p w)) (calls (run handle p w))
  end.
Proof.
  revert w; induction p as [a | e | R ev k IH]; intro w; simpl.
  - now rewrite after_nil.
  - reflexivity.
  - destruct (handle R ev w) as [[reason | r] w']; simpl.
    + reflexivity.
    + rewrite IH. destruct (outcome (run handle (k r) w')); simpl.
      * now rewrite after_after.
      * reflexivity.
Qed.

Lemma run_bind_ok (A B : Type) (p : Prog A) (f : A -> Prog B) (w w' : World)
    (a : A) (t : list Call) :
  run handle p w = MkRun (Ok a) w' t ->
  run handle (bind p f) w = after t (run handle (f a) w').
Proof. intro H. rewrite run_bind, H. reflexivity. Qed.

Lemma run_bind_fail (A B : Type) (p : Prog A) (f : A -> Prog B) (w w' : World)
    (e : exn) (t : list Call) :
  run handle p w = MkRun (Fail e) w' t ->
  run handle (bind p f) w = MkRun (Fail e) w' t.
Proof. intro H. rewrite run_bind, H. reflexivity. Qed.

Lemma run_perform (R : Type) (ev : Event R) (w : World) :
  run handle (perform ev) w =
  match handle R ev w with
  | (inl reason, w') => MkRun (Fail (External reason)) w' [Called ev]
  | (inr r, w') => MkRun (Ok r) w' [Called ev]
  end.
Proof. unfold perform; simpl. destruct (handle R ev w) as [[reason | r] w']; reflexivity. Qed.

Lemma run_perform_ok (R : Type) (ev : Event R) (w w' : World) (r : R) :
  handle R ev w = (inr r, w') ->
  run handle (perform ev) w = MkRun (Ok r) w' [Called ev].
Proof. intro H. now rewrite run_perform, H. Qed.

(** What holds of every call a program can make holds of the calls of
    each of its runs. *)
Lemma run_calls_only (A : Type) (P : Call -> Prop) (p : Prog A) (w : World) :
  calls_only P p -> Forall P (calls (run handle p w)).
Proof.
  revert w; induction p as [a | e | R ev k IH]; intros w Hp; simpl.
  - constructor.
  - constructor.
  - destruct Hp as [Hev Hk].
    destruct (handle R ev w) as [[reason | r] w']; simpl.
    + constructor; [exact Hev | constructor].
    + constructor; [exact Hev | apply IH, Hk].
Qed.

(** An [Error] a run ends with is one the program throws itself. *)
Lemma run_throws_only (A : Type) (P : string -> Prop) (p : Prog A) (w : World)
    (m : string) :
  throws_only P p -> outcome (run handle p w) = Fail (Error m) -> P m.
Proof.
  revert w; induction p as [a | e | R ev k IH]; intros w Hp; simpl.
  - discriminate.
  - destruct e; simpl in Hp; intro H; inversion H; subst; exact Hp.
  - destruct (handle R ev w) as [[reason | r] w']; simpl.
    + discriminate.
    + apply IH, Hp.
Qed.

End RunLaws.

Lemma calls_only_bind (A B : Type) (P : Call -> Prop) (p : Prog A) (f : A -> Prog B) :
  calls_only P p -> (forall a, calls_only P (f a)) -> calls_only P (bind p f).
Proof.
  intros Hp Hf; induction p as [a | e | R ev k IH]; simpl in *.
  - apply Hf.
  - exact I.
  - destruct Hp as [Hev Hk]. split; [exact Hev | intro r; apply IH, Hk].
Qed.

Lemma throws_only_bind (A B : Type) (P : string -> Prop) (p : Prog A) (f : A -> Prog B) :
  throws_only P p -> (forall a, throws_only P (f a)) -> throws_only P (bind p f).
Proof.
  intros Hp Hf; induction p as [a | e | R ev k IH]; simpl in *.
  - apply Hf.
  - exact Hp.
  - intro r; apply IH, Hp.
Qed.

Lemma calls_only_weaken (A : Type) (P Q : Call -> Prop) (p : Prog A) :
  (forall c, P c -> Q c) -> calls_only P p -> calls_only Q p.
Proof.
  intros HPQ; induction p as [a | e | R ev k IH]; simpl; auto.
  intros [Hev Hk]; split; [apply HPQ, Hev | intro r; apply IH, Hk].
Qed.


(* ================================================================= *)
(** ** The gateway *)

Lemma requestTronGrid_calls (shape : Shape) (network : option string)
    (url method : string) (body : option json) :
  calls_only is_gateway (requestTronGrid shape network url method body).
Proof.
  unfold requestTronGrid, getTronGridLink, perform; simpl.
  split; [exact I | intro key1]. split; [exact I | intro key2].
  destruct (JS.truthy key2); simpl; auto.
Qed.

Lemma requestTronGrid_throws (shape : Shape) (network : option string)
    (url method : string) (body : option json) :
  throws_only is_config_error (requestTronGrid shape network url method body).
Proof.
  unfold requestTronGrid, getTronGridLink, perform; simpl.
  intros key1 key2. destruct (JS.truthy key2); simpl; [auto | reflexivity].
Qed.

Lemma getLatestBlock_calls (network : option string) :
  calls_only is_gateway (getLatestBlock network).
Proof.
  unfold getLatestBlock. apply calls_only_bind.
  - apply requestTronGrid_calls.
  - intro r; exact I.
Qed.

Lemma getLatestBlock_throws (network : option string) :
  throws_only is_config_error (getLatestBlock network).
Proof.
  unfold getLatestBlock. apply throws_only_bind.
  - apply requestTronGrid_throws.
  - intro r; exact I.
Qed.

Lemma broadcastTransaction_calls (network : option string) (transaction : Transaction) :
  calls_only is_gateway (broadcastTransaction network transaction).
Proof. unfold broadcastTransaction. apply (requestTronGrid_calls ReceiptShape). Qed.

Lemma broadcastTransaction_throws (network : option string) (transaction : Transaction) :
  throws_only is_config_error (broadcastTransaction network transaction).
Proof. unfold broadcastTransaction. apply (requestTronGrid_throws ReceiptShape). Qed.

Lemma getTrxBalance_calls (address : string) (network : option string) :
  calls_only is_gateway (getTrxBalance address network).
Proof.
  unfold getTrxBalance. apply calls_only_bind.
  - apply requestTronGrid_calls.
  - intros [ | account rest]; exact I.
Qed.

Lemma getTrxBalance_throws (address : string) (network : option string) :
  throws_only is_config_error (getTrxBalance address network).
Proof.
  unfold getTrxBalance. apply throws_only_bind.
  - apply requestTronGrid_throws.
  - intros [ | account rest]; exact I.
Qed.

Lemma getTRC20Balance_calls (address contractAddress : string) (decimals : Z)
    (network : option string) :
  calls_only is_gateway (getTRC20Balance address contractAddress decimals network).
Proof.
  unfold getTRC20Balance. apply calls_only_bind.
  - apply requestTronGrid_calls.
  - intros [ | account rest]; [exact I | ]. destruct (trc20 account); exact I.
Qed.

Lemma getTRC20Balance_throws (address contractAddress : string) (decimals : Z)
    (network : option string) :
  throws_only is_config_error (getTRC20Balance address contractAddress decimals network).
Proof.
  unfold getTRC20Balance. apply throws_only_bind.
  - apply requestTronGrid_throws.
  - intros [ | account rest]; [exact I | ]. destruct (trc20 account); exact I.
Qed.

(* ================================================================= *)
(** ** bignumber.js comparisons *)

Lemma lt_not_gte (x y : BigNumber.t) :
  BigNumber.lt x y = true -> BigNumber.gte x y = false.
Proof.
  unfold BigNumber.lt, BigNumber.gte.
  destruct (BigNumber.compare x y) as [[ | | ] | ]; intro H;
    first [discriminate H | reflexivity].
Qed.

(** On finite values [gte] is the order of their values, equality
    included, and [lt] the strict one. *)
Lemma gte_Finite (a b : Q) :
  BigNumber.gte (BigNumber.Finite a) (BigNumber.Finite b) = true <-> (b <= a)%Q.
Proof.
  unfold BigNumber.gte; simpl. rewrite Qle_alt, <- (Qcompare_antisym b a).
  destruct (b ?= a)%Q; simpl; split; intro H; congruence.
Qed.

Lemma lt_Finite (a b : Q) :
  BigNumber.lt (BigNumber.Finite a) (BigNumber.Finite b) = true <-> (a < b)%Q.
Proof.
  unfold BigNumber.lt; simpl. rewrite Qlt_alt.
  destruct (a ?= b)%Q; split; intro H; congruence.
Qed.

(* ================================================================= *)
(** ** Transfers *)

Section Transfers.

Variable World : Type.
Variable handle : forall R : Type, Event R -> World -> (string + R) * World.

(** Construction of the transaction, then its broadcast. *)
Lemma run_construct_broadcast (ev : Event Transaction) (network : option string)
    (w : World) :
  run handle (transaction <- perform ev ;; broadcastTransaction network transaction) w =
  match handle _ ev w with
  | (inl reason, w') => MkRun (Fail (External reason)) w' [Called ev]
  | (inr transaction, w') =>
      after [Called ev] (run handle (broadcastTransaction network transaction) w')
  end.
Proof. reflexivity. Qed.

Lemma construct_broadcast_throws (ev : Event Transaction) (network : option string) :
  throws_only is_config_error
    (transaction <- perform ev ;; broadcastTransaction network transaction).
Proof.
  apply throws_only_bind.
  - intro r; exact I.
  - intro transaction; apply broadcastTransaction_throws.
Qed.

(** [sendTrx] once the key is imported and the block and the balance are
    fetched: the guard, then construction and broadcast. *)
Lemma sendTrx_run (privateKey to : string) (trx : JS.number) (network : option string)
    (w0 w1 w2 w3 : World) (wallet : TronWallet) (latestBlock : LatestBlock)
    (bal : Amount) (t2 t3 : list Call) :
  handle _ (FromTronPrivateKey privateKey) w0 = (inr wallet, w1) ->
  run handle (getLatestBlock (Some (or_mainnet network))) w1 = MkRun (Ok latestBlock) w2 t2 ->
  run handle (getTrxBalance (getAddress wallet) (Some (or_mainnet network))) w2 =
    MkRun (Ok bal) w3 t3 ->
  run handle (sendTrx privateKey to trx network) w0 =
  after (Called (FromTronPrivateKey privateKey) :: t2 ++ t3)
    (if BigNumber.gte (BigNumber.of_number (parseTrx trx)) (BigNumber.of_number (sun bal))
     then MkRun (Fail insufficient_balance) w3 []
     else run handle
            (transaction <- perform
               (GenerateTransaction wallet to (Plain (JNumber (parseTrx trx))) "TRX"
                  latestBlock) ;;
             broadcastTransaction (Some (or_mainnet network)) transaction) w3).
Proof.
  intros H1 H2 H3. unfold sendTrx; cbv zeta.
  erewrite run_bind_ok by (apply run_perform_ok; exact H1).
  erewrite run_bind_ok by exact H2.
  erewrite run_bind_ok by exact H3.
  rewrite !after_after. simpl app.
  destruct (BigNumber.gte _ _); reflexivity.
Qed.

Lemma sendTRC20Token_run (to contractAddress : string) (trx : JS.number)
    (privateKey : string) (decimals : Z) (network : option string)
    (w0 w1 w2 w3 : World) (wallet : TronWallet) (latestBlock : LatestBlock)
    (bal : Amount) (t2 t3 : list Call) :
  handle _ (FromTronPrivateKey privateKey) w0 = (inr wallet, w1) ->
  run handle (getLatestBlock (Some (or_mainnet network))) w1 = MkRun (Ok latestBlock) w2 t2 ->
  run handle (getTRC20Balance (getAddress wallet) contractAddress decimals
                (Some (or_mainnet network))) w2 = MkRun (Ok bal) w3 t3 ->
  run handle (sendTRC20Token to contractAddress trx privateKey decimals network) w0 =
  after (Called (FromTronPrivateKey privateKey) :: t2 ++ t3)
    (if BigNumber.gte (BigNumber.of_number (trx * JS.Math_pow10 decimals)%float)
                      (BigNumber.of_number (sun bal))
     then MkRun (Fail insufficient_balance) w3 []
     else run handle
            (transaction <- perform
               (TransferTRC20Token wallet contractAddress to
                  (Plain (JNumber (trx * JS.Math_pow10 decimals)%float)) latestBlock) ;;
             broadcastTransaction (Some (or_mainnet network)) transaction) w3).
Proof.
  intros H1 H2 H3. unfold sendTRC20Token; cbv zeta.
  erewrite run_bind_ok by (apply run_perform_ok; exact H1).
  erewrite run_bind_ok by exact H2.
  erewrite run_bind_ok by exact H3.
  rewrite !after_after. simpl app.
  destruct (BigNumber.gte _ _); reflexivity.
Qed.

(** The guard on its own: of an amount, a balance and the rest of the
    transfer, which of the two ways the run goes. *)
Lemma guard_cases (A : Type) (amount balance : JS.number) (before : list Call)
    (w : World) (rest : Prog A) (sent : Run World A) :
  throws_only is_config_error rest ->
  sent = after before
    (if BigNumber.gte (BigNumber.of_number amount) (BigNumber.of_number balance)
     then MkRun (Fail insufficient_balance) w []
     else run handle rest w) ->
  (outcome sent = Fail insufficient_balance <->
     BigNumber.gte (BigNumber.of_number amount) (BigNumber.of_number balance) = true) /\
  (BigNumber.gte (BigNumber.of_number amount) (BigNumber.of_number balance) = true ->
     sent = MkRun (Fail insufficient_balance) w before) /\
  (forall a b : Q,
     BigNumber.of_number amount = BigNumber.Finite a ->
     BigNumber.of_number balance = BigNumber.Finite b ->
     (outcome sent = Fail insufficient_balance <-> (b <= a)%Q)) /\
  (BigNumber.lt (BigNumber.of_number amount) (BigNumber.of_number balance) = true ->
     sent = after before (run handle rest w)).
Proof.
  intros Hrest ->.
  assert (G1 : outcome
                 (after before
                    (if BigNumber.gte (BigNumber.of_number amount)
                                      (BigNumber.of_number balance)
                     then MkRun (Fail insufficient_balance) w []
                     else run handle rest w)) = Fail insufficient_balance <->
               BigNumber.gte (BigNumber.of_number amount) (BigNumber.of_number balance)
               = true).
  { split.
    - destruct (BigNumber.gte _ _) eqn:G; [reflexivity | ].
      simpl. intro H. apply run_throws_only with (P := is_config_error) in H.
      + discriminate H.
      + exact Hrest.
    - intros ->. reflexivity. }
  split; [exact G1 | split; [ | split]].
  - intros ->. unfold after; simpl. now rewrite app_nil_r.
  - intros a b Ha Hb. rewrite G1, Ha, Hb. apply gte_Finite.
  - intro L. now rewrite (lt_not_gte _ _ L).
Qed.

(** C1.  Once the sender's key is imported and the latest block and the
    balance are fetched, [sendTrx] and [sendTRC20Token] fail with
    "Insufficient balance" exactly when the requested base-unit amount is
    greater than or equal to the fetched balance, in the comparison of
    bignumber.js, which on finite numbers is the order of their decimal
    values, so that an amount equal to the balance is rejected; an
    amount strictly less goes on to construct the transaction and, when
    the wallet library returns it, to broadcast it. *)
Theorem insufficient_balance_guard :
  (forall (privateKey to : string) (trx : JS.number) (network : option string)
      (w0 w1 w2 w3 : World) (wallet : TronWallet) (latestBlock : LatestBlock)
      (bal : Amount) (t2 t3 : list Call),
    handle _ (FromTronPrivateKey privateKey) w0 = (inr wallet, w1) ->
    run handle (getLatestBlock (Some (or_mainnet network))) w1 =
      MkRun (Ok latestBlock) w2 t2 ->
    run handle (getTrxBalance (getAddress wallet) (Some (or_mainnet network))) w2 =
      MkRun (Ok bal) w3 t3 ->
    let amount := parseTrx trx in
    let sent := run handle (sendTrx privateKey to trx network) w0 in
    let before := Called (FromTronPrivateKey privateKey) :: t2 ++ t3 in
    let construct :=
      GenerateTransaction wallet to (Plain (JNumber amount)) "TRX" latestBlock in
    (outcome sent = Fail insufficient_balance <->
       BigNumber.gte (BigNumber.of_number amount) (BigNumber.of_number (sun bal)) = true) /\
    (BigNumber.gte (BigNumber.of_number amount) (BigNumber.of_number (sun bal)) = true ->
       sent = MkRun (Fail insufficient_balance) w3 before) /\
    (forall a b : Q,
       BigNumber.of_number amount = BigNumber.Finite a ->
       BigNumber.of_number (sun bal) = BigNumber.Finite b ->
       (outcome sent = Fail insufficient_balance <-> (b <= a)%Q)) /\
    (BigNumber.lt (BigNumber.of_number amount) (BigNumber.of_number (sun bal)) = true ->
       (forall (transaction : Transaction) (w4 : World),
          handle _ construct w3 = (inr transaction, w4) ->
          sent = after (before ++ [Called construct])
                   (run handle
                      (broadcastTransaction (Some (or_mainnet network)) transaction) w4)) /\
       (forall (reason : string) (w4 : World),
          handle _ construct w3 = (inl reason, w4) ->
          sent = MkRun (Fail (External reason)) w4 (before ++ [Called construct]))))
  /\
  (forall (to contractAddress : string) (trx : JS.number) (privateKey : string)
      (decimals : Z) (network : option string)
      (w0 w1 w2 w3 : World) (wallet : TronWallet) (latestBlock : LatestBlock)
      (bal : Amount) (t2 t3 : list Call),
    handle _ (FromTronPrivateKey privateKey) w0 = (inr wallet, w1) ->
    run handle (getLatestBlock (Some (or_mainnet network))) w1 =
      MkRun (Ok latestBlock) w2 t2 ->
    run handle (getTRC20Balance (getAddress wallet) contractAddress decimals
                  (Some (or_mainnet network))) w2 = MkRun (Ok bal) w3 t3 ->
    let amount := (trx * JS.Math_pow10 decimals)%float in
    let sent :=
      run handle (sendTRC20Token to contractAddress trx privateKey decimals network) w0 in
    let before := Called (FromTronPrivateKey privateKey) :: t2 ++ t3 in
    let construct :=
      TransferTRC20Token wallet contractAddress to (Plain (JNumber amount)) latestBlock in
    (outcome sent = Fail insufficient_balance <->
       BigNumber.gte (BigNumber.of_number amount) (BigNumber.of_number (sun bal)) = true) /\
    (BigNumber.gte (BigNumber.of_number amount) (BigNumber.of_number (sun bal)) = true ->
       sent = MkRun (Fail insufficient_balance) w3 before) /\
    (forall a b : Q,
       BigNumber.of_number amount = BigNumber.Finite a ->
       BigNumber.of_number (sun bal) = BigNumber.Finite b ->
       (outcome sent = Fail insufficient_balance <-> (b <= a)%Q)) /\
    (BigNumber.lt (BigNumber.of_number amount) (BigNumber.of_number (sun bal)) = true ->
       (forall (transaction : Transaction) (w4 : World),
          handle _ construct w3 = (inr transaction, w4) ->
          sent = after (before ++ [Called construct])
                   (run handle
                      (broadcastTransaction (Some (or_mainnet network)) transaction) w4)) /\
       (forall (reason : string) (w4 : World),
          handle _ construct w3 = (inl reason, w4) ->
          sent = MkRun (Fail (External reason)) w4 (before ++ [Called construct])))).
Proof.
  split.
  - intros privateKey to trx network w0 w1 w2 w3 wallet latestBlock bal t2 t3 H1 H2 H3
      amount sent before construct.
    pose proof (sendTrx_run privateKey to trx network _ _ _ _ _ _ _ _ _ H1 H2 H3) as E.
    destruct (guard_cases _ _ _ _ _ _ sent
                (construct_broadcast_throws construct (Some (or_mainnet network))) E)
      as (G1 & G2 & G3 & G4).
    split; [exact G1 | split; [exact G2 | split; [exact G3 | intro L; split]]].
    + intros transaction w4 H4. rewrite (G4 L), run_construct_broadcast, H4.
      now rewrite after_after.
    + intros reason w4 H4. rewrite (G4 L), run_construct_broadcast, H4.
      reflexivity.
  - intros to contractAddress trx privateKey decimals network w0 w1 w2 w3 wallet
      latestBlock bal t2 t3 H1 H2 H3 amount sent before construct.
    pose proof (sendTRC20Token_run to contractAddress trx privateKey decimals network
                  _ _ _ _ _ _ _ _ _ H1 H2 H3) as E.
    destruct (guard_cases _ _ _ _ _ _ sent
                (construct_broadcast_throws construct (Some (or_mainnet network))) E)
      as (G1 & G2 & G3 & G4).
    split; [exact G1 | split; [exact G2 | split; [exact G3 | intro L; split]]].
    + intros transaction w4 H4. rewrite (G4 L), run_construct_broadcast, H4.
      now rewrite after_after.
    + intros reason w4 H4. rewrite (G4 L), run_construct_broadcast, H4.
      reflexivity.
Qed.

End Transfers.

(** The scenario of the specification: a balance of 5,000,000 base units;
    a request for 5 coins is refused, one for 4.999999 coins is
    constructed and broadcast; the same with a token of 6 decimals. *)
Lemma insufficient_balance_guard_witness :
  outcome (run Mock.handle (sendTrx "alice" "Tbob" 5%float None)
             (Mock.holding 5000000%float [])) = Fail insufficient_balance
  /\ Mock.broadcasts
       (final (run Mock.handle (sendTrx "alice" "Tbob" 4.999999%float None)
                 (Mock.holding 5000000%float []))) = ["0a02"]
  /\ outcome (run Mock.handle (sendTRC20Token "Tbob" "TUSDT" 5%float "alice" 6 None)
                (Mock.holding 0%float [[("TUSDT", "5000000")]]))
     = Fail insufficient_balance
  /\ Mock.broadcasts
       (final (run Mock.handle
                 (sendTRC20Token "Tbob" "TUSDT" 4.999999%float "alice" 6 None)
                 (Mock.holding 0%float [[("TUSDT", "5000000")]]))) = ["0a03"].
Proof.
  set (w := Mock.holding 5000000%float []).
  set (v := Mock.holding 0%float [[("TUSDT", "5000000")]]).
  pose (t2 := calls (run Mock.handle (getLatestBlock (Some "mainnet")) w)).
  pose (t3 := calls (run Mock.handle (getTrxBalance "Talice" (Some "mainnet")) w)).
  pose (u3 := calls (run Mock.handle
                       (getTRC20Balance "Talice" "TUSDT" 6 (Some "mainnet")) v)).
  assert (H1 : Mock.handle _ (FromTronPrivateKey "alice") w = (inr (Mock.wallet "alice"), w))
    by reflexivity.
  assert (H2 : run Mock.handle (getLatestBlock (Some (or_mainnet None))) w
               = MkRun (Ok Mock.latest) w t2) by (vm_compute; reflexivity).
  assert (H3 : run Mock.handle
                 (getTrxBalance (getAddress (Mock.wallet "alice")) (Some (or_mainnet None))) w
               = MkRun (Ok {| sun := 5000000%float; trx := 5%float |}) w t3)
    by (vm_compute; reflexivity).
  assert (K1 : Mock.handle _ (FromTronPrivateKey "alice") v = (inr (Mock.wallet "alice"), v))
    by reflexivity.
  assert (K2 : run Mock.handle (getLatestBlock (Some (or_mainnet None))) v
               = MkRun (Ok Mock.latest) v t2) by (vm_compute; reflexivity).
  assert (K3 : run Mock.handle
                 (getTRC20Balance (getAddress (Mock.wallet "alice")) "TUSDT" 6
                    (Some (or_mainnet None))) v
               = MkRun (Ok {| sun := 5000000%float; trx := 5%float |}) v u3)
    by (vm_compute; reflexivity).
  split; [ | split; [ | split]].
  - destruct (proj1 (insufficient_balance_guard Mock.world Mock.handle)
                "alice" "Tbob" 5%float None _ _ _ _ _ _ _ _ _ H1 H2 H3) as (G1 & _).
    apply G1. vm_compute. reflexivity.
  - destruct (proj1 (insufficient_balance_guard Mock.world Mock.handle)
                "alice" "Tbob" 4.999999%float None _ _ _ _ _ _ _ _ _ H1 H2 H3)
      as (_ & _ & _ & G4).
    assert (L : BigNumber.lt (BigNumber.of_number (parseTrx 4.999999%float))
                  (BigNumber.of_number 5000000%float) = true) by (vm_compute; reflexivity).
    rewrite (proj1 (G4 L) _ _ eq_refl). vm_compute. reflexivity.
  - destruct (proj2 (insufficient_balance_guard Mock.world Mock.handle)
                "Tbob" "TUSDT" 5%float "alice" 6 None _ _ _ _ _ _ _ _ _ K1 K2 K3)
      as (G1 & _).
    apply G1. vm_compute. reflexivity.
  - destruct (proj2 (insufficient_balance_guard Mock.world Mock.handle)
                "Tbob" "TUSDT" 4.999999%float "alice" 6 None _ _ _ _ _ _ _ _ _ K1 K2 K3)
      as (_ & _ & _ & G4).
    assert (L : BigNumber.lt (BigNumber.of_number (4.999999 * JS.Math_pow10 6)%float)
                  (BigNumber.of_number 5000000%float) = true) by (vm_compute; reflexivity).
    rewrite (proj1 (G4 L) _ _ eq_refl). vm_compute. reflexivity.
Defined.

(* ================================================================= *)
(** ** Reads of the chain *)

Lemma scan_trc20_other (contractAddress : string) (trc20 : list TokenEntry) :
  Forall (other_contract contractAddress) trc20 ->
  scan_trc20 contractAddress trc20 = zero_amount.
Proof.
  induction 1 as [ | token rest Htoken _ IH]; simpl.
  - reflexivity.
  - destruct token as [ | [key amount] more]; [exact IH | ].
    destruct (String.eqb_spec key contractAddress) as [-> | _].
    + exfalso; apply Htoken; reflexivity.
    + exact IH.
Qed.

Lemma scan_trc20_first (contractAddress amount : string) (pre post : list TokenEntry)
    (more : TokenEntry) :
  Forall (other_contract contractAddress) pre ->
  sun (scan_trc20 contractAddress
         (pre ++ ((contractAddress, amount) :: more) :: post)%list)
  = JS.parseInt amount.
Proof.
  induction 1 as [ | token rest Htoken _ IH]; simpl.
  - now rewrite String.eqb_refl.
  - destruct token as [ | [key other] more']; [exact IH | ].
    destruct (String.eqb_spec key contractAddress) as [-> | _].
    + exfalso; apply Htoken; reflexivity.
    + exact IH.
Qed.

Section Reads.

Variable World : Type.
Variable handle : forall R : Type, Event R -> World -> (string + R) * World.

(** C7.  When TronGrid answers a listing of transactions with
    [success: false], [getTrxTransactions] and [getTrc20Transactions]
    throw an [Error] whose message is the [error] text of the answer;
    with [success: true] they return its [data]. *)
Theorem transactions_remote_error :
  (forall (address : string) (network : option string) (w w' : World) (r : Page)
      (t : list Call),
    run handle
      (requestTronGrid PageShape (Some (or_mainnet network))
         ("v1/accounts/" ++ address ++ "/transactions") "get" None) w
      = MkRun (Ok r) w' t ->
    (success r = false ->
       forall m : string, error r = Some m ->
       run handle (getTrxTransactions address network) w = MkRun (Fail (Error m)) w' t) /\
    (success r = true ->
       run handle (getTrxTransactions address network) w = MkRun (Ok (data r)) w' t))
  /\
  (forall (address : string) (network : option string) (w w' : World) (r : Page)
      (t : list Call),
    run handle
      (requestTronGrid PageShape (Some (or_mainnet network))
         ("v1/accounts/" ++ address ++ "/transactions/trc20") "get" None) w
      = MkRun (Ok r) w' t ->
    (success r = false ->
       forall m : string, error r = Some m ->
       run handle (getTrc20Transactions address network) w = MkRun (Fail (Error m)) w' t) /\
    (success r = true ->
       run handle (getTrc20Transactions address network) w = MkRun (Ok (data r)) w' t)).
Proof.
  split; intros address network w w' r t H; split.
  - intros S m E. unfold getTrxTransactions; cbv zeta.
    erewrite run_bind_ok by exact H. rewrite S, E. simpl.
    unfold after; simpl. now rewrite app_nil_r.
  - intros S. unfold getTrxTransactions; cbv zeta.
    erewrite run_bind_ok by exact H. rewrite S. simpl.
    unfold after; simpl. now rewrite app_nil_r.
  - intros S m E. unfold getTrc20Transactions; cbv zeta.
    erewrite run_bind_ok by exact H. rewrite S, E. simpl.
    unfold after; simpl. now rewrite app_nil_r.
  - intros S. unfold getTrc20Transactions; cbv zeta.
    erewrite run_bind_ok by exact H. rewrite S. simpl.
    unfold after; simpl. now rewrite app_nil_r.
Qed.

(** C8.  When the lookup of the account returns an empty list of
    records, [getTrxBalance] returns the zero amount and no error. *)
Theorem getTrxBalance_no_account (address : string) (network : option string)
    (w w' : World) (t : list Call) :
  run handle
    (requestTronGrid AccountsShape (Some (or_mainnet network))
       ("v1/accounts/" ++ address) "get" None) w = MkRun (Ok []) w' t ->
  run handle (getTrxBalance address network) w = MkRun (Ok zero_amount) w' t.
Proof.
  intro H. unfold getTrxBalance; cbv zeta.
  erewrite run_bind_ok by exact H. simpl.
  unfold after; simpl. now rewrite app_nil_r.
Qed.

(** C9.  [getTRC20Balance] returns the amount of the first entry of the
    account's token list whose contract address is, character for
    character, the one asked for, read by [parseInt]; it returns zero
    when there is no account record, when the token list is empty and
    when no entry is for that contract. *)
Theorem getTRC20Balance_scan (address contractAddress : string) (decimals : Z)
    (network : option string) (w w' : World) (records : list Account) (t : list Call) :
  run handle
    (requestTronGrid AccountsShape (Some (or_mainnet network))
       ("v1/accounts/" ++ address) "get" None) w = MkRun (Ok records) w' t ->
  exists bal : Amount,
    run handle (getTRC20Balance address contractAddress decimals network) w
      = MkRun (Ok bal) w' t /\
    (records = [] -> bal = zero_amount) /\
    (forall (account : Account) (others : list Account),
       records = account :: others ->
       (trc20 account = [] -> bal = zero_amount) /\
       (Forall (other_contract contractAddress) (trc20 account) -> bal = zero_amount) /\
       (forall (pre post : list TokenEntry) (amount : string) (more : TokenEntry),
          trc20 account = (pre ++ ((contractAddress, amount) :: more) :: post)%list ->
          Forall (other_contract contractAddress) pre ->
          sun bal = JS.parseInt amount)).
Proof.
  intro H. unfold getTRC20Balance; cbv zeta.
  erewrite run_bind_ok by exact H.
  destruct records as [ | account others].
  - exists zero_amount. split; [ | split].
    + unfold after; simpl. now rewrite app_nil_r.
    + reflexivity.
    + intros account others E; discriminate E.
  - exists (scan_trc20 contractAddress (trc20 account)). split; [ | split].
    + destruct (trc20 account); unfold after; simpl; now rewrite app_nil_r.
    + intro E; discriminate E.
    + intros account' others' E. injection E as <- <-. split; [ | split].
      * intros ->. reflexivity.
      * apply scan_trc20_other.
      * intros pre post amount more -> Hpre. now apply scan_trc20_first.
Qed.

End Reads.

(** A failed listing with the message "x". *)
Lemma transactions_remote_error_witness :
  let w :=
    {| Mock.api_key := Some "key"; Mock.accounts := [];
       Mock.page := {| data := [JNull]; success := false; error := Some "x" |};
       Mock.broadcasts := [] |} in
  outcome (run Mock.handle (getTrxTransactions "Talice" None) w) = Fail (Error "x")
  /\ outcome (run Mock.handle (getTrc20Transactions "Talice" None) w) = Fail (Error "x")
  /\ outcome (run Mock.handle (getTrxTransactions "Talice" None) (Mock.holding 0%float []))
     = Ok [].
Proof.
  intro w.
  pose (t1 := calls (run Mock.handle (getTrxTransactions "Talice" None) w)).
  pose (t2 := calls (run Mock.handle (getTrc20Transactions "Talice" None) w)).
  assert (H1 : run Mock.handle
                 (requestTronGrid PageShape (Some (or_mainnet None))
                    ("v1/accounts/" ++ "Talice" ++ "/transactions") "get" None) w
               = MkRun (Ok (Mock.page w)) w t1) by (vm_compute; reflexivity).
  assert (H2 : run Mock.handle
                 (requestTronGrid PageShape (Some (or_mainnet None))
                    ("v1/accounts/" ++ "Talice" ++ "/transactions/trc20") "get" None) w
               = MkRun (Ok (Mock.page w)) w t2) by (vm_compute; reflexivity).
  assert (H3 : run Mock.handle
                 (requestTronGrid PageShape (Some (or_mainnet None))
                    ("v1/accounts/" ++ "Talice" ++ "/transactions") "get" None)
                 (Mock.holding 0%float [])
               = MkRun (Ok (Mock.page (Mock.holding 0%float []))) (Mock.holding 0%float []) t1)
    by (vm_compute; reflexivity).
  split; [ | split].
  - rewrite (proj1 (proj1 (transactions_remote_error Mock.world Mock.handle)
                      "Talice" None w w _ t1 H1) eq_refl "x" eq_refl).
    reflexivity.
  - rewrite (proj1 (proj2 (transactions_remote_error Mock.world Mock.handle)
                      "Talice" None w w _ t2 H2) eq_refl "x" eq_refl).
    reflexivity.
  - rewrite (proj2 (proj1 (transactions_remote_error Mock.world Mock.handle)
                      "Talice" None _ _ _ t1 H3) eq_refl).
    reflexivity.
Defined.

(** An address the API has no record of. *)
Lemma getTrxBalance_no_account_witness :
  let w :=
    {| Mock.api_key := Some "key"; Mock.accounts := [];
       Mock.page := {| data := []; success := true; error := None |};
       Mock.broadcasts := [] |} in
  outcome (run Mock.handle (getTrxBalance "Tnobody" None) w)
  = Ok {| sun := 0%float; trx := 0%float |}.
Proof.
  intro w.
  pose (t := calls (run Mock.handle (getTrxBalance "Tnobody" None) w)).
  assert (H : run Mock.handle
                (requestTronGrid AccountsShape (Some (or_mainnet None))
                   ("v1/accounts/" ++ "Tnobody") "get" None) w = MkRun (Ok []) w t)
    by (vm_compute; reflexivity).
  rewrite (getTrxBalance_no_account Mock.world Mock.handle "Tnobody" None w w t H).
  reflexivity.
Defined.

(** An account with two tokens: the second one is found, and an address
    that differs only in the case of its letters is not. *)
Lemma getTRC20Balance_scan_witness :
  let w := Mock.holding 0%float [[("TUSDT", "12345678")]; [("TTOKEN", "77")]] in
  (exists bal : Amount,
     outcome (run Mock.handle (getTRC20Balance "Talice" "TTOKEN" 6 None) w) = Ok bal
     /\ sun bal = 77%float)
  /\ outcome (run Mock.handle (getTRC20Balance "Talice" "Ttoken" 6 None) w)
     = Ok zero_amount.
Proof.
  intro w.
  pose (t := calls (run Mock.handle (getTRC20Balance "Talice" "TTOKEN" 6 None) w)).
  assert (H : run Mock.handle
                (requestTronGrid AccountsShape (Some (or_mainnet None))
                   ("v1/accounts/" ++ "Talice") "get" None) w
              = MkRun (Ok (Mock.accounts w)) w t) by (vm_compute; reflexivity).
  split.
  - destruct (getTRC20Balance_scan Mock.world Mock.handle "Talice" "TTOKEN" 6 None
                w w _ t H) as (bal & E & _ & Hacc).
    exists bal. split; [now rewrite E | ].
    destruct (Hacc _ _ eq_refl) as (_ & _ & Hfirst).
    rewrite (Hfirst [[("TUSDT", "12345678")]] [] "77" [] eq_refl).
    + vm_compute. reflexivity.
    + constructor; [ | constructor]. unfold other_contract; simpl. discriminate.
  - destruct (getTRC20Balance_scan Mock.world Mock.handle "Talice" "Ttoken" 6 None
                w w _ t H) as (bal & E & _ & Hacc).
    rewrite E; simpl. f_equal.
    destruct (Hacc _ _ eq_refl) as (_ & Hnone & _).
    apply Hnone. repeat constructor; unfold other_contract; simpl; discriminate.
Defined.

(* ================================================================= *)
(** ** Result objects *)

Lemma get_field_set_same (key : string) (v : value) (fields : list (string * value)) :
  get_field key (set_field key v fields) = Some v.
Proof.
  induction fields as [ | [k old] rest IH]; simpl.
  - now rewrite String.eqb_refl.
  - destruct (String.eqb_spec k key) as [-> | N]; simpl.
    + now rewrite String.eqb_refl.
    + destruct (String.eqb_spec k key); [contradiction | exact IH].
Qed.

Lemma get_field_set_other (key k : string) (v : value) (fields : list (string * value)) :
  k <> key -> get_field k (set_field key v fields) = get_field k fields.
Proof.
  intro N. induction fields as [ | [k' old] rest IH]; simpl.
  - destruct (String.eqb_spec key k); [congruence | reflexivity].
  - destruct (String.eqb_spec k' key) as [-> | N']; simpl.
    + destruct (String.eqb_spec key k); [congruence | reflexivity].
    + destruct (String.eqb_spec k' k); [reflexivity | exact IH].
Qed.

Lemma get_field_plain (k : string) (trx : object) :
  get_field k (map (fun kv => (fst kv, Plain (snd kv))) trx)
  = option_map Plain (get_field k trx).
Proof.
  induction trx as [ | [k' j] rest IH]; simpl.
  - reflexivity.
  - destruct (String.eqb_spec k' k); [reflexivity | exact IH].
Qed.

(** The result of a drain is the receipt of the broadcast with [amount]
    stored in it, every other field as it was. *)
Lemma with_amount_fields (trx : object) (amount : value) :
  get_field "amount" (with_amount trx amount) = Some amount /\
  (forall k : string, k <> "amount" ->
     get_field k (with_amount trx amount) = option_map Plain (get_field k trx)).
Proof.
  unfold with_amount. split.
  - apply get_field_set_same.
  - intros k N. rewrite get_field_set_other by exact N. apply get_field_plain.
Qed.

(** [Math.pow(10, 6)], as a number and as a [BigNumber]. *)
Lemma Math_pow10_6 : JS.Math_pow10 6 = 1000000%float.
Proof. vm_compute. reflexivity. Qed.

Lemma reserve_value : BigNumber.of_number (JS.Math_pow10 6) = BigNumber.Finite 1000000.
Proof. vm_compute. reflexivity. Qed.

(* ================================================================= *)
(** ** Drains *)

Section Drains.

Variable World : Type.
Variable handle : forall R : Type, Event R -> World -> (string + R) * World.

(** [drainTrx] once the key is imported and the block and the balance are
    fetched: no guard, construction at once. *)
Lemma drainTrx_run (privateKey to : string) (network : option string)
    (w0 w1 w2 w3 : World) (wallet : TronWallet) (latestBlock : LatestBlock)
    (bal : Amount) (t2 t3 : list Call) :
  handle _ (FromTronPrivateKey privateKey) w0 = (inr wallet, w1) ->
  run handle (getLatestBlock (Some (or_mainnet network))) w1 = MkRun (Ok latestBlock) w2 t2 ->
  run handle (getTrxBalance (getAddress wallet) (Some (or_mainnet network))) w2 =
    MkRun (Ok bal) w3 t3 ->
  let amount := BigNumber.minus (BigNumber.of_number (sun bal)) (BigNumber.Finite 1000000) in
  let construct := GenerateTransaction wallet to (Big amount) "TRX" latestBlock in
  run handle (drainTrx privateKey to network) w0 =
  after (Called (FromTronPrivateKey privateKey) :: t2 ++ t3)
    (match handle _ construct w3 with
     | (inl reason, w4) => MkRun (Fail (External reason)) w4 [Called construct]
     | (inr transaction, w4) =>
         after [Called construct]
           (run handle
              (trx <- broadcastTransaction (Some (or_mainnet network)) transaction ;;
               Ret (with_amount trx (Big amount))) w4)
     end).
Proof.
  intros H1 H2 H3 amount construct. unfold drainTrx; cbv zeta.
  erewrite run_bind_ok by (apply run_perform_ok; exact H1).
  erewrite run_bind_ok by exact H2.
  erewrite run_bind_ok by exact H3.
  rewrite !after_after. simpl app. rewrite reserve_value.
  reflexivity.
Qed.

Lemma drainTrx_throws (privateKey to : string) (network : option string) :
  throws_only is_config_error (drainTrx privateKey to network).
Proof.
  unfold drainTrx; cbv zeta.
  apply throws_only_bind; [intro r; exact I | intro wallet].
  apply throws_only_bind; [apply getLatestBlock_throws | intro latestBlock].
  apply throws_only_bind; [apply getTrxBalance_throws | intro bal].
  apply throws_only_bind; [intro r; exact I | intro transaction].
  apply throws_only_bind; [apply broadcastTransaction_throws | intro trx].
  exact I.
Qed.

(** C4.  In [drainTrx], with [balance] the fetched balance, the amount
    sent is [balance - 10^6]: it is the amount the transaction is
    constructed with, that transaction is the one broadcast, and the
    result is the receipt of the broadcast with [amount] set to it.  A
    balance of 2,000,000 gives the amount 1,000,000. *)
Theorem drainTrx_amount (privateKey to : string) (network : option string)
    (w0 w1 w2 w3 w4 w5 : World) (wallet : TronWallet) (latestBlock : LatestBlock)
    (bal : Amount) (transaction : Transaction) (trx : object) (t2 t3 t5 : list Call) :
  let amount := BigNumber.minus (BigNumber.of_number (sun bal)) (BigNumber.Finite 1000000) in
  let construct := GenerateTransaction wallet to (Big amount) "TRX" latestBlock in
  handle _ (FromTronPrivateKey privateKey) w0 = (inr wallet, w1) ->
  run handle (getLatestBlock (Some (or_mainnet network))) w1 = MkRun (Ok latestBlock) w2 t2 ->
  run handle (getTrxBalance (getAddress wallet) (Some (or_mainnet network))) w2 =
    MkRun (Ok bal) w3 t3 ->
  handle _ construct w3 = (inr transaction, w4) ->
  run handle (broadcastTransaction (Some (or_mainnet network)) transaction) w4 =
    MkRun (Ok trx) w5 t5 ->
  run handle (drainTrx privateKey to network) w0 =
    MkRun (Ok (with_amount trx (Big amount))) w5
      (Called (FromTronPrivateKey privateKey) :: t2 ++ t3 ++ Called construct :: t5)
  /\ get_field "amount" (with_amount trx (Big amount)) = Some (Big amount)
  /\ (forall k : string, k <> "amount" ->
        get_field k (with_amount trx (Big amount)) = option_map Plain (get_field k trx))
  /\ (forall q : Q, BigNumber.of_number (sun bal) = BigNumber.Finite q ->
        amount = BigNumber.Finite (Qred (q - 1000000)))
  /\ (sun bal = 2000000%float -> amount = BigNumber.Finite 1000000).
Proof.
  intros amount construct H1 H2 H3 H4 H5.
  split; [ | split; [ | split; [ | split]]].
  - rewrite (drainTrx_run privateKey to network _ _ _ _ _ _ _ _ _ H1 H2 H3).
    fold amount; fold construct. rewrite H4.
    erewrite run_bind_ok by exact H5. simpl.
    unfold after; simpl. rewrite app_nil_r, <- app_assoc. reflexivity.
  - apply with_amount_fields.
  - apply with_amount_fields.
  - intros q E. unfold amount. rewrite E. reflexivity.
  - intros E. unfold amount. rewrite E. vm_compute. reflexivity.
Qed.

(** C6.  [drainTrx] has no guard on the balance: no run of it ends with
    "Insufficient balance", and whatever the fetched balance is, the
    transaction is constructed with [balance - 10^6] and, when the wallet
    library returns it, broadcast; for a balance of at most [10^6] that
    amount is zero or negative. *)
Theorem drainTrx_no_guard :
  (forall (privateKey to : string) (network : option string) (w0 : World),
     outcome (run handle (drainTrx privateKey to network) w0) <> Fail insufficient_balance)
  /\
  (forall (privateKey to : string) (network : option string)
      (w0 w1 w2 w3 : World) (wallet : TronWallet) (latestBlock : LatestBlock)
      (bal : Amount) (t2 t3 : list Call),
    handle _ (FromTronPrivateKey privateKey) w0 = (inr wallet, w1) ->
    run handle (getLatestBlock (Some (or_mainnet network))) w1 =
      MkRun (Ok latestBlock) w2 t2 ->
    run handle (getTrxBalance (getAddress wallet) (Some (or_mainnet network))) w2 =
      MkRun (Ok bal) w3 t3 ->
    let amount :=
      BigNumber.minus (BigNumber.of_number (sun bal)) (BigNumber.Finite 1000000) in
    let construct := GenerateTransaction wallet to (Big amount) "TRX" latestBlock in
    let before := Called (FromTronPrivateKey privateKey) :: t2 ++ t3 in
    let drained := run handle (drainTrx privateKey to network) w0 in
    (exists rest : list Call, calls drained = (before ++ Called construct :: rest)%list) /\
    (forall (transaction : Transaction) (w4 : World),
       handle _ construct w3 = (inr transaction, w4) ->
       drained =
       after (before ++ [Called construct])
         (run handle
            (trx <- broadcastTransaction (Some (or_mainnet network)) transaction ;;
             Ret (with_amount trx (Big amount))) w4)) /\
    (forall q : Q,
       BigNumber.of_number (sun bal) = BigNumber.Finite q -> (q <= 1000000)%Q ->
       exists q' : Q, amount = BigNumber.Finite q' /\ (q' <= 0)%Q)).
Proof.
  split.
  - intros privateKey to network w0 H.
    apply run_throws_only with (P := is_config_error) in H.
    + discriminate H.
    + apply drainTrx_throws.
  - intros privateKey to network w0 w1 w2 w3 wallet latestBlock bal t2 t3 H1 H2 H3
      amount construct before drained.
    pose proof (drainTrx_run privateKey to network _ _ _ _ _ _ _ _ _ H1 H2 H3) as E.
    cbv zeta in E. fold amount in E. fold construct in E. fold before in E. fold drained in E.
    split; [ | split].
    + rewrite E. destruct (handle Transaction construct w3) as [[reason | transaction] w4].
      * exists []. reflexivity.
      * eexists. unfold after; simpl. reflexivity.
    + intros transaction w4 H4. rewrite E, H4, after_after. reflexivity.
    + intros q Hq Hle. exists (Qred (q - 1000000)). split.
      * unfold amount. rewrite Hq. reflexivity.
      * rewrite Qred_correct. lra.
Qed.

End Drains.

(** The scenario of the specification: a balance of 2,000,000 base units
    is drained of 1,000,000. *)
Lemma drainTrx_amount_witness :
  outcome (run Mock.handle (drainTrx "alice" "Tbob" None) (Mock.holding 2000000%float []))
  = Ok [("result", Plain (JBool true)); ("txid", Plain (JString "a1b2"));
        ("amount", Big (BigNumber.Finite 1000000))].
Proof.
  set (w := Mock.holding 2000000%float []).
  pose (bal := {| sun := 2000000%float; trx := 2%float |}).
  pose (amount := BigNumber.minus (BigNumber.of_number (sun bal)) (BigNumber.Finite 1000000)).
  pose (sent := run Mock.handle (broadcastTransaction (Some "mainnet") {| hex := "0a02" |}) w).
  pose (t2 := calls (run Mock.handle (getLatestBlock (Some "mainnet")) w)).
  pose (t3 := calls (run Mock.handle (getTrxBalance "Talice" (Some "mainnet")) w)).
  assert (H1 : Mock.handle _ (FromTronPrivateKey "alice") w = (inr (Mock.wallet "alice"), w))
    by reflexivity.
  assert (H2 : run Mock.handle (getLatestBlock (Some (or_mainnet None))) w
               = MkRun (Ok Mock.latest) w t2) by (vm_compute; reflexivity).
  assert (H3 : run Mock.handle
                 (getTrxBalance (getAddress (Mock.wallet "alice")) (Some (or_mainnet None))) w
               = MkRun (Ok bal) w t3) by (vm_compute; reflexivity).
  assert (H4 : Mock.handle _
                 (GenerateTransaction (Mock.wallet "alice") "Tbob" (Big amount) "TRX"
                    Mock.latest) w = (inr {| hex := "0a02" |}, w)) by reflexivity.
  assert (H5 : run Mock.handle (broadcastTransaction (Some (or_mainnet None))
                                  {| hex := "0a02" |}) w
               = MkRun (Ok Mock.receipt) (final sent) (calls sent))
    by (vm_compute; reflexivity).
  destruct (drainTrx_amount Mock.world Mock.handle "alice" "Tbob" None
              _ _ _ _ _ _ _ _ _ _ _ _ _ _ H1 H2 H3 H4 H5) as (E & _).
  rewrite E. vm_compute. reflexivity.
Defined.

(** An account holding 400,000 base units, less than the reserve: the
    drain is constructed with a negative amount and broadcast. *)
Lemma drainTrx_no_guard_witness :
  Mock.broadcasts
    (final (run Mock.handle (drainTrx "alice" "Tbob" None) (Mock.holding 400000%float [])))
  = ["0a02"]
  /\ exists q : Q,
       BigNumber.minus (BigNumber.of_number 400000%float) (BigNumber.Finite 1000000)
       = BigNumber.Finite q /\ (q <= 0)%Q.
Proof.
  set (w := Mock.holding 400000%float []).
  pose (bal := {| sun := 400000%float; trx := 0.4%float |}).
  pose (t2 := calls (run Mock.handle (getLatestBlock (Some "mainnet")) w)).
  pose (t3 := calls (run Mock.handle (getTrxBalance "Talice" (Some "mainnet")) w)).
  assert (H1 : Mock.handle _ (FromTronPrivateKey "alice") w = (inr (Mock.wallet "alice"), w))
    by reflexivity.
  assert (H2 : run Mock.handle (getLatestBlock (Some (or_mainnet None))) w
               = MkRun (Ok Mock.latest) w t2) by (vm_compute; reflexivity).
  assert (H3 : run Mock.handle
                 (getTrxBalance (getAddress (Mock.wallet "alice")) (Some (or_mainnet None))) w
               = MkRun (Ok bal) w t3) by (vm_compute; reflexivity).
  destruct (proj2 (drainTrx_no_guard Mock.world Mock.handle) "alice" "Tbob" None
              _ _ _ _ _ _ _ _ _ H1 H2 H3) as (_ & B & S).
  split.
  - rewrite (B {| hex := "0a02" |} w eq_refl). vm_compute. reflexivity.
  - apply (S 400000%Q).
    + vm_compute. reflexivity.
    + vm_compute. discriminate.
Defined.

(* ================================================================= *)
(** ** The drain of a token and its backer *)

Lemma gateway_not_transfer (c : Call) : is_gateway c -> ~ is_transferTRC20Token c.
Proof. destruct c as [R ev]; destruct ev; simpl; tauto. Qed.

Lemma gateway_not_generate (c : Call) : is_gateway c -> ~ is_generateTransaction c.
Proof. destruct c as [R ev]; destruct ev; simpl; tauto. Qed.

(** A native transfer never asks the wallet library for a token
    transfer. *)
Lemma sendTrx_calls (privateKey to : string) (trx : JS.number) (network : option string) :
  calls_only (fun c => ~ is_transferTRC20Token c) (sendTrx privateKey to trx network).
Proof.
  unfold sendTrx; cbv zeta.
  apply calls_only_bind; [split; [simpl; tauto | intro r; exact I] | intro wallet].
  apply calls_only_bind;
    [eapply calls_only_weaken; [apply gateway_not_transfer | apply getLatestBlock_calls]
    | intro latestBlock].
  apply calls_only_bind;
    [eapply calls_only_weaken; [apply gateway_not_transfer | apply getTrxBalance_calls]
    | intro bal].
  destruct (BigNumber.gte _ _); [exact I | ].
  apply calls_only_bind; [split; [simpl; tauto | intro r; exact I] | intro transaction].
  eapply calls_only_weaken; [apply gateway_not_transfer | apply broadcastTransaction_calls].
Qed.

(** Without a backer, a drain of a token never asks the wallet library
    for a native transaction. *)
Lemma drainTRC20Token_alone_calls (to contractAddress privateKey : string) (decimals : Z)
    (network backer : option string) :
  JS.truthy backer = false ->
  calls_only (fun c => ~ is_generateTransaction c)
    (drainTRC20Token to contractAddress privateKey decimals network backer).
Proof.
  intro F. unfold drainTRC20Token; cbv zeta.
  apply calls_only_bind; [split; [simpl; tauto | intro r; exact I] | intro wallet].
  apply calls_only_bind;
    [eapply calls_only_weaken; [apply gateway_not_generate | apply getLatestBlock_calls]
    | intro latestBlock].
  apply calls_only_bind;
    [eapply calls_only_weaken; [apply gateway_not_generate | apply getTRC20Balance_calls]
    | intro bal].
  apply calls_only_bind.
  - destruct backer as [key | ]; [rewrite F | ]; exact I.
  - intros _.
    apply calls_only_bind; [split; [simpl; tauto | intro r; exact I] | intro transaction].
    apply calls_only_bind;
      [eapply calls_only_weaken; [apply gateway_not_generate | apply broadcastTransaction_calls]
      | intro trx; exact I].
Qed.

Section Backer.

Variable World : Type.
Variable handle : forall R : Type, Event R -> World -> (string + R) * World.

Lemma importTrxAddress_run (privateKey : string) (w w' : World) (wallet : TronWallet) :
  handle _ (FromTronPrivateKey privateKey) w = (inr wallet, w') ->
  run handle (importTrxAddress privateKey) w =
  MkRun (Ok {| address := getAddress wallet; privateKey := getTronPrivateKey wallet |}) w'
    [Called (FromTronPrivateKey privateKey)].
Proof. intro H. unfold importTrxAddress, perform; simpl. now rewrite H. Qed.

(** [drainTRC20Token] once the key is imported and the block and the
    token balance are fetched: the funding by the backer, if any, then
    the construction. *)
Lemma drainTRC20Token_run (to contractAddress privateKey : string) (decimals : Z)
    (network backer : option string)
    (w0 w1 w2 w3 : World) (wallet : TronWallet) (latestBlock : LatestBlock)
    (bal : Amount) (t2 t3 : list Call) :
  handle _ (FromTronPrivateKey privateKey) w0 = (inr wallet, w1) ->
  run handle (getLatestBlock (Some (or_mainnet network))) w1 = MkRun (Ok latestBlock) w2 t2 ->
  run handle (getTRC20Balance (getAddress wallet) contractAddress decimals
                (Some (or_mainnet network))) w2 = MkRun (Ok bal) w3 t3 ->
  run handle (drainTRC20Token to contractAddress privateKey decimals network backer) w0 =
  after (Called (FromTronPrivateKey privateKey) :: t2 ++ t3)
    (run handle
       (_ <- match backer with
             | Some key =>
                 if JS.truthy backer then
                   sender <- importTrxAddress privateKey ;;
                   _ <- sendTrx key (address sender) 1%float (Some (or_mainnet network)) ;;
                   Ret tt
                 else Ret tt
             | None => Ret tt
             end ;;
        transaction <- perform
          (TransferTRC20Token wallet contractAddress to (Plain (JNumber (sun bal)))
             latestBlock) ;;
        trx <- broadcastTransaction (Some (or_mainnet network)) transaction ;;
        Ret (with_amount trx (Plain (JNumber (sun bal))))) w3).
Proof.
  intros H1 H2 H3. unfold drainTRC20Token; cbv zeta.
  erewrite run_bind_ok by (apply run_perform_ok; exact H1).
  erewrite run_bind_ok by exact H2.
  erewrite run_bind_ok by exact H3.
  rewrite !after_after. reflexivity.
Qed.

(** C5, as the code has it.  With a backer key that is neither null nor
    the empty text, [drainTRC20Token] runs [sendTrx] for 1 coin from the
    backer to the address of the sender's key before it asks for the
    token transaction: no token transfer is constructed before or during
    that transfer; if the transfer fails, the drain fails with the same
    error and ends there; if it succeeds, the construction of the token
    transfer is the next call.  With no backer, or an empty one, no
    native transaction is constructed at all. *)
Theorem drainTRC20Token_backer_first :
  (forall (to contractAddress privateKey key : string) (decimals : Z)
      (network : option string) (w0 w1 w2 w3 w4 : World)
      (wallet sender : TronWallet) (latestBlock : LatestBlock)
      (bal : Amount) (t2 t3 : list Call),
    key <> "" ->
    handle _ (FromTronPrivateKey privateKey) w0 = (inr wallet, w1) ->
    run handle (getLatestBlock (Some (or_mainnet network))) w1 =
      MkRun (Ok latestBlock) w2 t2 ->
    run handle (getTRC20Balance (getAddress wallet) contractAddress decimals
                  (Some (or_mainnet network))) w2 = MkRun (Ok bal) w3 t3 ->
    handle _ (FromTronPrivateKey privateKey) w3 = (inr sender, w4) ->
    let funding :=
      run handle (sendTrx key (getAddress sender) 1%float (Some (or_mainnet network))) w4 in
    let before :=
      (Called (FromTronPrivateKey privateKey) :: t2 ++ t3
       ++ Called (FromTronPrivateKey privateKey) :: calls funding)%list in
    let construct :=
      TransferTRC20Token wallet contractAddress to (Plain (JNumber (sun bal))) latestBlock in
    let drained :=
      run handle
        (drainTRC20Token to contractAddress privateKey decimals network (Some key)) w0 in
    Forall (fun c => ~ is_transferTRC20Token c) before /\
    (forall e : exn,
       outcome funding = Fail e ->
       drained = MkRun (Fail e) (final funding) before) /\
    (forall receipt : object,
       outcome funding = Ok receipt ->
       drained =
       after before
         (run handle
            (transaction <- perform construct ;;
             trx <- broadcastTransaction (Some (or_mainnet network)) transaction ;;
             Ret (with_amount trx (Plain (JNumber (sun bal))))) (final funding)) /\
       exists rest : list Call, calls drained = (before ++ Called construct :: rest)%list))
  /\
  (forall (to contractAddress privateKey : string) (decimals : Z)
      (network backer : option string) (w0 w1 w2 w3 : World)
      (wallet : TronWallet) (latestBlock : LatestBlock)
      (bal : Amount) (t2 t3 : list Call),
    JS.truthy backer = false ->
    handle _ (FromTronPrivateKey privateKey) w0 = (inr wallet, w1) ->
    run handle (getLatestBlock (Some (or_mainnet network))) w1 =
      MkRun (Ok latestBlock) w2 t2 ->
    run handle (getTRC20Balance (getAddress wallet) contractAddress decimals
                  (Some (or_mainnet network))) w2 = MkRun (Ok bal) w3 t3 ->
    let construct :=
      TransferTRC20Token wallet contractAddress to (Plain (JNumber (sun bal))) latestBlock in
    let drained :=
      run handle (drainTRC20Token to contractAddress privateKey decimals network backer) w0 in
    drained =
    after (Called (FromTronPrivateKey privateKey) :: t2 ++ t3)
      (run handle
         (transaction <- perform construct ;;
          trx <- broadcastTransaction (Some (or_mainnet network)) transaction ;;
          Ret (with_amount trx (Plain (JNumber (sun bal))))) w3) /\
    Forall (fun c => ~ is_generateTransaction c) (calls drained)).
Proof.
  split.
  - intros to contractAddress privateKey key decimals network w0 w1 w2 w3 w4 wallet sender
      latestBlock bal t2 t3 Hkey H1 H2 H3 H4 funding before construct drained.
    pose proof (drainTRC20Token_run to contractAddress privateKey decimals network
                  (Some key) _ _ _ _ _ _ _ _ _ H1 H2 H3) as E.
    fold drained in E.
    assert (T : JS.truthy (Some key) = true).
    { simpl. destruct (String.eqb_spec key ""); [contradiction | reflexivity]. }
    rewrite T in E.
    rewrite run_bind in E.
    erewrite (run_bind_ok _ _ _ _ (importTrxAddress privateKey)) in E
      by (apply importTrxAddress_run; exact H4).
    simpl address in E. rewrite run_bind in E. fold funding in E.
    assert (B : Forall (fun c => ~ is_transferTRC20Token c) before).
    { unfold before. constructor; [simpl; tauto | ].
      apply Forall_app; split; [ | apply Forall_app; split].
      - replace t2 with (calls (run handle (getLatestBlock (Some (or_mainnet network))) w1))
          by now rewrite H2.
        eapply Forall_impl; [apply gateway_not_transfer | ].
        apply run_calls_only, getLatestBlock_calls.
      - replace t3 with
          (calls (run handle (getTRC20Balance (getAddress wallet) contractAddress decimals
                                (Some (or_mainnet network))) w2)) by now rewrite H3.
        eapply Forall_impl; [apply gateway_not_transfer | ].
        apply run_calls_only, getTRC20Balance_calls.
      - constructor; [simpl; tauto | ].
        apply run_calls_only, sendTrx_calls. }
    split; [exact B | split].
    + intros e F. rewrite F in E. simpl in E. rewrite E.
      unfold after, before; simpl. now rewrite <- app_assoc.
    + intros receipt F. rewrite F in E. simpl in E.
      assert (E' : drained =
                   after before
                     (run handle
                        (transaction <- perform construct ;;
                         trx <- broadcastTransaction (Some (or_mainnet network)) transaction ;;
                         Ret (with_amount trx (Plain (JNumber (sun bal))))) (final funding))).
      { rewrite E. unfold after, before; simpl.
        rewrite app_nil_r, <- !app_assoc. reflexivity. }
      split; [exact E' | ].
      rewrite E'. simpl.
      destruct (handle Transaction construct (final funding)) as [[reason | tx] w5]; simpl;
        eexists; reflexivity.
  - intros to contractAddress privateKey decimals network backer w0 w1 w2 w3 wallet
      latestBlock bal t2 t3 F H1 H2 H3 construct drained.
    split.
    + unfold drained.
      rewrite (drainTRC20Token_run to contractAddress privateKey decimals network
                 backer _ _ _ _ _ _ _ _ _ H1 H2 H3).
      destruct backer as [key | ]; [rewrite F | ]; reflexivity.
    + apply run_calls_only, drainTRC20Token_alone_calls, F.
Qed.

End Backer.

(** An account with 2,000,000 base units and a token: with the backer
    ["backer"] the native transfer is broadcast before the token's; with
    a backer whose key does not import, the drain fails with that error
    and nothing is broadcast; with no backer only the token transfer
    is. *)
Lemma drainTRC20Token_backer_first_witness :
  let w := Mock.holding 2000000%float [[("TUSDT", "12345678")]] in
  Mock.broadcasts
    (final (run Mock.handle
              (drainTRC20Token "Tbob" "TUSDT" "alice" 6 None (Some "backer")) w))
  = ["0a02"; "0a03"]
  /\ (outcome (run Mock.handle
                 (drainTRC20Token "Tbob" "TUSDT" "alice" 6 None (Some "invalid")) w)
      = Fail (External "invalid private key")
      /\ Mock.broadcasts
           (final (run Mock.handle
                     (drainTRC20Token "Tbob" "TUSDT" "alice" 6 None (Some "invalid")) w))
         = [])
  /\ Mock.broadcasts
       (final (run Mock.handle (drainTRC20Token "Tbob" "TUSDT" "alice" 6 None None) w))
     = ["0a03"].
Proof.
  intro w.
  pose (bal := {| sun := 12345678%float; trx := sunToTrx 12345678%float |}).
  pose (t2 := calls (run Mock.handle (getLatestBlock (Some "mainnet")) w)).
  pose (t3 := calls (run Mock.handle
                       (getTRC20Balance "Talice" "TUSDT" 6 (Some "mainnet")) w)).
  assert (H1 : Mock.handle _ (FromTronPrivateKey "alice") w = (inr (Mock.wallet "alice"), w))
    by reflexivity.
  assert (H2 : run Mock.handle (getLatestBlock (Some (or_mainnet None))) w
               = MkRun (Ok Mock.latest) w t2) by (vm_compute; reflexivity).
  assert (H3 : run Mock.handle
                 (getTRC20Balance (getAddress (Mock.wallet "alice")) "TUSDT" 6
                    (Some (or_mainnet None))) w = MkRun (Ok bal) w t3)
    by (vm_compute; reflexivity).
  split; [ | split].
  - assert (K : "backer" <> "") by discriminate.
    destruct (proj1 (drainTRC20Token_backer_first Mock.world Mock.handle)
                "Tbob" "TUSDT" "alice" "backer" 6 None _ _ _ _ _ _ _ _ _ _ _
                K H1 H2 H3 H1) as (_ & _ & S).
    destruct (S Mock.receipt) as (E & _); [vm_compute; reflexivity | ].
    rewrite E. vm_compute. reflexivity.
  - assert (K : "invalid" <> "") by discriminate.
    destruct (proj1 (drainTRC20Token_backer_first Mock.world Mock.handle)
                "Tbob" "TUSDT" "alice" "invalid" 6 None _ _ _ _ _ _ _ _ _ _ _
                K H1 H2 H3 H1) as (_ & F & _).
    rewrite (F (External "invalid private key")) by (vm_compute; reflexivity).
    split; vm_compute; reflexivity.
  - destruct (proj2 (drainTRC20Token_backer_first Mock.world Mock.handle)
                "Tbob" "TUSDT" "alice" 6 None None _ _ _ _ _ _ _ _ _
                eq_refl H1 H2 H3) as (E & _).
    rewrite E. vm_compute. reflexivity.
Defined.

(** The claim fails for a backer that is the empty text.  It is not
    null, and in this world a native transfer from that key would go
    through and be broadcast; yet the run is the run without a backer:
    the token transfer is constructed and broadcast, and no native
    transaction is constructed at any point. *)
Lemma drainTRC20Token_empty_backer :
  let w := Mock.holding 2000000%float [[("TUSDT", "12345678")]] in
  let drained :=
    run Mock.handle (drainTRC20Token "Tbob" "TUSDT" "alice" 6 None (Some "")) w in
  Some "" <> @None string
  /\ Mock.broadcasts
       (final (run Mock.handle (sendTrx "" "Talice" 1%float (Some "mainnet")) w))
     = ["0a02"]
  /\ drained = run Mock.handle (drainTRC20Token "Tbob" "TUSDT" "alice" 6 None None) w
  /\ Exists is_transferTRC20Token (calls drained)
  /\ Mock.broadcasts (final drained) = ["0a03"]
  /\ ~ Exists is_generateTransaction (calls drained).
Proof.
  intros w drained.
  split; [discriminate | split; [ | split; [ | split; [ | split]]]].
  - vm_compute. reflexivity.
  - reflexivity.
  - vm_compute. do 7 apply Exists_cons_tl. apply Exists_cons_hd. exact I.
  - vm_compute. reflexivity.
  - apply Forall_Exists_neg.
    vm_compute. repeat constructor; intro H; exact H.
Qed.

(* ================================================================= *)
(** ** Unit conversion *)

Lemma digits2_pos_bound (m : positive) : Z.pos m < 2 ^ Z.pos (digits2_pos m).
Proof.
  induction m as [p IH | p IH | ]; simpl digits2_pos.
  - rewrite Pos2Z.inj_succ, Z.pow_succ_r by apply Pos2Z.is_nonneg.
    rewrite Pos2Z.inj_xI. lia.
  - rewrite Pos2Z.inj_succ, Z.pow_succ_r by apply Pos2Z.is_nonneg.
    rewrite Pos2Z.inj_xO. lia.
  - reflexivity.
Qed.

(** A mantissa shifted right is the quotient by the power of two. *)
Lemma shiftl_neg (m : positive) (e : Z) :
  e < 0 -> Z.shiftl (Z.pos m) e = Z.pos m / 2 ^ (- e).
Proof.
  intro H. replace e with (- (- e)) at 1 by lia.
  rewrite Z.shiftl_opp_r. apply Z.shiftr_div_pow2. lia.
Qed.

(** [truncate] is the floor of the magnitude, with the sign put back:
    the integer part, toward zero. *)
Lemma truncate_floor (x : JS.number) (s : bool) (m : positive) (e : Z) :
  Prim2SF x = S754_finite s m e ->
  JS.truncate x = cond_Zopp s (Qfloor (JS.magnitude m e)).
Proof.
  intro E. unfold JS.truncate, JS.magnitude. rewrite E. f_equal.
  destruct (Z.leb_spec 0 e) as [P | N].
  - rewrite Qfloor_Z. apply Z.shiftl_mul_pow2, P.
  - rewrite shiftl_neg by exact N. unfold Qfloor.
    rewrite Z2Pos.id by (apply Z.pow_pos_nonneg; lia). reflexivity.
Qed.

(** [ToInt32] keeps an integer part that fits in 32 bits. *)
Lemma ToInt32_small (x : JS.number) :
  - 2 ^ 31 < JS.truncate x < 2 ^ 31 -> JS.ToInt32 x = JS.truncate x.
Proof.
  intro H. unfold JS.ToInt32. set (z := JS.truncate x) in *.
  destruct (Z.le_gt_cases 0 z) as [P | N].
  - rewrite Z.mod_small by lia.
    destruct (Z.leb_spec (2 ^ 31) z); lia.
  - assert (M : z mod 2 ^ 32 = z + 2 ^ 32).
    { rewrite <- (Z.mod_add z 1 (2 ^ 32)) by lia. apply Z.mod_small. lia. }
    rewrite M. destruct (Z.leb_spec (2 ^ 31) (z + 2 ^ 32)); lia.
Qed.

(** [ToInt32] in general: a signed 32-bit integer that differs from the
    integer part by a multiple of [2^32]. *)
Lemma ToInt32_wraps (x : JS.number) :
  - 2 ^ 31 <= JS.ToInt32 x < 2 ^ 31 /\
  exists k : Z, JS.ToInt32 x = JS.truncate x + k * 2 ^ 32.
Proof.
  unfold JS.ToInt32. set (z := JS.truncate x).
  pose proof (Z.mod_pos_bound z (2 ^ 32) ltac:(lia)) as B.
  pose proof (Z.div_mod z (2 ^ 32) ltac:(lia)) as D.
  destruct (Z.leb_spec (2 ^ 31) (z mod 2 ^ 32)); split; try lia.
  - exists (- (z / 2 ^ 32) - 1). lia.
  - exists (- (z / 2 ^ 32)). lia.
Qed.

(** Below [2^31]: the exponent and the mantissa of such a double. *)
Lemma below_2_31 (m : positive) (e : Z) :
  Z.pos m < 2 ^ 53 ->
  e < -21 \/ (e = -21 /\ Z.pos m < 2 ^ 52) ->
  0 <= Z.shiftl (Z.pos m) e < 2 ^ 31.
Proof.
  intros M [L | [-> M']].
  - rewrite shiftl_neg by lia.
    assert (P : 2 ^ 22 <= 2 ^ (- e)) by (apply Z.pow_le_mono_r; lia).
    split; [apply Z.div_pos; lia | apply Z.div_lt_upper_bound; lia].
  - rewrite shiftl_neg by lia.
    split; [apply Z.div_pos; lia | apply Z.div_lt_upper_bound; lia].
Qed.

Lemma SFltb_2_31 (m : positive) (e : Z) :
  SFltb (S754_finite false m e) (S754_finite false 4503599627370496 (-21)) = true ->
  e < -21 \/ (e = -21 /\ Z.pos m < 2 ^ 52).
Proof.
  unfold SFltb, SFcompare. intro H.
  destruct (Z.compare_spec e (-21)) as [E | L | G]; try discriminate H.
  - right. split; [exact E | ].
    rewrite Pos.compare_cont_spec in H.
    destruct (Pos.compare_spec m 4503599627370496) as [C | C | C];
      simpl in H; try discriminate H.
    exact (Pos2Z.pos_lt_pos _ _ C).
  - left. exact L.
Qed.

(** The mantissa of a double has at most 53 bits. *)
Lemma valid_mantissa (s : bool) (m : positive) (e : Z) :
  valid_binary (S754_finite s m e) = true -> Z.pos m < 2 ^ 53.
Proof.
  intro V. unfold valid_binary, bounded, canonical_mantissa, fexp in V.
  apply andb_prop in V. destruct V as [V _]. apply Z.eqb_eq in V.
  unfold prec in V.
  assert (D : Z.pos (digits2_pos m) <= 53) by lia.
  eapply Z.lt_le_trans; [apply digits2_pos_bound | ].
  apply Z.pow_le_mono_r; lia.
Qed.

(** A number below [2^31] in magnitude has an integer part below it. *)
Lemma truncate_below (x : JS.number) :
  PrimFloat.ltb (abs x) 2147483648 = true -> - 2 ^ 31 < JS.truncate x < 2 ^ 31.
Proof.
  intro H. rewrite ltb_spec, abs_spec in H.
  replace (Prim2SF 2147483648) with (S754_finite false 4503599627370496 (-21)) in H
    by (vm_compute; reflexivity).
  pose proof (Prim2SF_valid x) as V.
  unfold JS.truncate.
  destruct (Prim2SF x) as [s | s | | s m e]; simpl in H; try discriminate H; try lia.
  pose proof (below_2_31 m e (valid_mantissa s m e V) (SFltb_2_31 m e H)) as S.
  clear H V. destruct s; simpl; lia.
Qed.

(** C10.  [parseTrx d] is the 32-bit integer [(d * 10^6) | 0], where the
    product is the binary64 product of the language: the integer part of
    the product toward zero, taken modulo [2^32] into the signed 32-bit
    range; when the product is below [2^31] in magnitude, it is the
    integer part itself. *)
Theorem parseTrx_truncates (d : JS.number) :
  let product := (d * 1000000)%float in
  parseTrx d = JS.of_Z (JS.ToInt32 product)
  /\ (forall (s : bool) (m : positive) (e : Z),
        Prim2SF product = S754_finite s m e ->
        JS.truncate product = cond_Zopp s (Qfloor (JS.magnitude m e)))
  /\ - 2 ^ 31 <= JS.ToInt32 product < 2 ^ 31
  /\ (exists k : Z, JS.ToInt32 product = JS.truncate product + k * 2 ^ 32)
  /\ (PrimFloat.ltb (abs product) 2147483648 = true ->
      parseTrx d = JS.of_Z (JS.truncate product)).
Proof.
  intro product.
  assert (P : parseTrx d = JS.of_Z (JS.ToInt32 product)).
  { unfold parseTrx, product. now rewrite Math_pow10_6. }
  split; [exact P | split; [ | split; [ | split]]].
  - intros s m e. apply truncate_floor.
  - apply ToInt32_wraps.
  - apply ToInt32_wraps.
  - intro H. rewrite P. f_equal. apply ToInt32_small, truncate_below, H.
Qed.

(** 4.999999 coins are 4,999,999 base units; 3000 coins, beyond the
    32-bit range, wrap to a negative amount. *)
Lemma parseTrx_truncates_witness :
  parseTrx 4.999999%float = 4999999%float
  /\ parseTrx 1.5%float = 1500000%float
  /\ parseTrx 3000%float = (-1294967296)%float.
Proof.
  split; [ | split].
  - rewrite (proj2 (proj2 (proj2 (proj2 (parseTrx_truncates 4.999999%float))))
               ltac:(vm_compute; reflexivity)).
    vm_compute. reflexivity.
  - rewrite (proj2 (proj2 (proj2 (proj2 (parseTrx_truncates 1.5%float))))
               ltac:(vm_compute; reflexivity)).
    vm_compute. reflexivity.
  - rewrite (proj1 (parseTrx_truncates 3000%float)). vm_compute. reflexivity.
Defined.

(** C2, at the input where it fails.  8,200,000 base units are 8.2
    coins; the binary64 product [8.2 * 10^6] is just under 8,200,000 and
    its integer part is 8,199,999, so the round trip loses one unit. *)
Theorem parseTrx_sunToTrx_8200000 :
  sunToTrx 8200000%float = 8.2%float
  /\ (8.2 * 1000000 <? 8200000)%float = true
  /\ parseTrx (sunToTrx 8200000%float) = 8199999%float
  /\ parseTrx (sunToTrx 8200000%float) <> 8200000%float.
Proof.
  split; [ | split; [ | split]]; try (vm_compute; reflexivity).
  intro H. apply (f_equal JS.truncate) in H. vm_compute in H. discriminate H.
Qed.

(** C3, at the input where it fails.  A token of 18 decimals held for
    [10^18] base units, one token: [getTRC20Balance] asked with
    [decimals = 18] reports [10^12], the base units divided by [10^6],
    where the division by [10^18] gives 1. *)
Theorem getTRC20Balance_ignores_decimals :
  let w := Mock.holding 0%float [[("TTOKEN", "1000000000000000000")]] in
  outcome (run Mock.handle (getTRC20Balance "Talice" "TTOKEN" 18 None) w)
  = Ok {| sun := 1e18%float; trx := 1e12%float |}
  /\ BigNumber.parseFloat
       (BigNumber.toFixed
          (BigNumber.div (BigNumber.of_number 1e18%float)
                         (BigNumber.of_number (JS.Math_pow10 18)))) = 1%float
  /\ (forall (address contractAddress : string) (decimals decimals' : Z)
        (network : option string),
        getTRC20Balance address contractAddress decimals network
        = getTRC20Balance address contractAddress decimals' network).
Proof.
  intro w. split; [ | split].
  - vm_compute. reflexivity.
  - vm_compute. reflexivity.
  - reflexivity.
Qed.

(* ================================================================= *)
(** ** Further properties: the gateway *)

Lemma requestTronGrid_reads (shape : Shape) (network : option string) (url : string) :
  calls_only is_read (requestTronGrid shape network url "get" None).
Proof.
  unfold requestTronGrid, getTronGridLink, perform; simpl.
  split; [exact I | intro key1]. split; [exact I | intro key2].
  destruct (JS.truthy key2); simpl; auto.
Qed.

Section Gateway.

Variable World : Type.
Variable handle : forall R : Type, Event R -> World -> (string + R) * World.


(** X1.  When the API key read by [getTronGridLink] is missing or empty,
    [requestTronGrid] throws "Please provide TRONGRID_API_KEY" after the
    two reads of the configuration, and no HTTP request is made. *)
Theorem requestTronGrid_missing_key (shape : Shape) (network : option string)
    (url method : string) (body : option json) (w w1 w2 : World)
    (key1 key2 : option string) :
  handle _ (GetEnv api_key_name) w = (inr key1, w1) ->
  handle _ (GetEnv api_key_name) w1 = (inr key2, w2) ->
  JS.truthy key2 = false ->
  run handle (requestTronGrid shape network url method body) w =
  MkRun (Fail config_error) w2
    [Called (GetEnv api_key_name); Called (GetEnv api_key_name)].
Proof.
  intros H1 H2 F. unfold requestTronGrid, getTronGridLink, perform; simpl.
  unfold api_key_name in H1, H2. rewrite H1; simpl. rewrite H2; simpl.
  rewrite F. reflexivity.
Qed.


(** X3.  The reads of the chain ([getLatestBlock], [getTrxBalance],
    [getTRC20Balance], [getTrxTransactions], [getTrc20Transactions]) only
    read: in every run each of their calls is a read of the
    configuration or a GET without a body; none reaches the wallet
    library and none posts. *)
Theorem reads_only_read (address contractAddress : string) (decimals : Z)
    (network : option string) (w : World) :
  Forall is_read (calls (run handle (getLatestBlock network) w))
  /\ Forall is_read (calls (run handle (getTrxBalance address network) w))
  /\ Forall is_read
       (calls (run handle (getTRC20Balance address contractAddress decimals network) w))
  /\ Forall is_read (calls (run handle (getTrxTransactions address network) w))
  /\ Forall is_read (calls (run handle (getTrc20Transactions address network) w)).
Proof.
  split; [ | split; [ | split; [ | split]]]; apply run_calls_only.
  - unfold getLatestBlock. apply calls_only_bind; [ | intro r; exact I].
    apply (requestTronGrid_reads NowBlockShape).
  - unfold getTrxBalance. apply calls_only_bind.
    + apply (requestTronGrid_reads AccountsShape).
    + intros [ | account rest]; exact I.
  - unfold getTRC20Balance. apply calls_only_bind.
    + apply (requestTronGrid_reads AccountsShape).
    + intros [ | account rest]; [exact I | ]. destruct (trc20 account); exact I.
  - unfold getTrxTransactions. apply calls_only_bind.
    + apply (requestTronGrid_reads PageShape).
    + intro r. destruct (negb (success r)); exact I.
  - unfold getTrc20Transactions. apply calls_only_bind.
    + apply (requestTronGrid_reads PageShape).
    + intro r. destruct (negb (success r)); exact I.
Qed.

(** X4.  Without an API key none of the four transfers gets past the
    fetch of the latest block: after the sender's key is imported, each
    fails with "Please provide TRONGRID_API_KEY"; no balance is fetched
    and nothing is constructed or broadcast. *)
Theorem transfers_missing_key (to contractAddress privateKey : string) (trx : JS.number)
    (decimals : Z) (network backer : option string) (w0 w1 w2 w3 : World)
    (wallet : TronWallet) (key1 key2 : option string) :
  handle _ (FromTronPrivateKey privateKey) w0 = (inr wallet, w1) ->
  handle _ (GetEnv api_key_name) w1 = (inr key1, w2) ->
  handle _ (GetEnv api_key_name) w2 = (inr key2, w3) ->
  JS.truthy key2 = false ->
  let trace :=
    [Called (FromTronPrivateKey privateKey);
     Called (GetEnv api_key_name); Called (GetEnv api_key_name)] in
  run handle (sendTrx privateKey to trx network) w0 = MkRun (Fail config_error) w3 trace
  /\ run handle (sendTRC20Token to contractAddress trx privateKey decimals network) w0
     = MkRun (Fail config_error) w3 trace
  /\ run handle (drainTrx privateKey to network) w0 = MkRun (Fail config_error) w3 trace
  /\ run handle (drainTRC20Token to contractAddress privateKey decimals network backer) w0
     = MkRun (Fail config_error) w3 trace.
Proof.
  intros H1 H2 H3 F trace.
  assert (B : forall n : option string,
            run handle (getLatestBlock n) w1 =
            MkRun (Fail config_error) w3
              [Called (GetEnv api_key_name); Called (GetEnv api_key_name)]).
  { intro n. unfold getLatestBlock; cbv zeta.
    apply run_bind_fail.
    apply (requestTronGrid_missing_key NowBlockShape _ _ _ _ _ _ _ _ _ H2 H3 F). }
  split; [ | split; [ | split]].
  - unfold sendTrx; cbv zeta.
    erewrite run_bind_ok by (apply run_perform_ok; exact H1).
    erewrite run_bind_fail by apply B. reflexivity.
  - unfold sendTRC20Token; cbv zeta.
    erewrite run_bind_ok by (apply run_perform_ok; exact H1).
    erewrite run_bind_fail by apply B. reflexivity.
  - unfold drainTrx; cbv zeta.
    erewrite run_bind_ok by (apply run_perform_ok; exact H1).
    erewrite run_bind_fail by apply B. reflexivity.
  - unfold drainTRC20Token; cbv zeta.
    erewrite run_bind_ok by (apply run_perform_ok; exact H1).
    erewrite run_bind_fail by apply B. reflexivity.
Qed.

End Gateway.

(** An empty API key: the request is refused before any HTTP call. *)
Lemma requestTronGrid_missing_key_witness :
  let w :=
    {| Mock.api_key := Some ""; Mock.accounts := [];
       Mock.page := {| data := []; success := true; error := None |};
       Mock.broadcasts := [] |} in
  run Mock.handle (requestTronGrid AccountsShape None "v1/accounts/Talice" "get" None) w
  = MkRun (Fail config_error) w
      [Called (GetEnv api_key_name); Called (GetEnv api_key_name)].
Proof.
  intro w.
  exact (requestTronGrid_missing_key Mock.world Mock.handle AccountsShape None
           "v1/accounts/Talice" "get" None w w w (Some "") (Some "")
           eq_refl eq_refl eq_refl).
Defined.


(** No key in the configuration: a transfer stops after the import of
    the sender's key. *)
Lemma transfers_missing_key_witness :
  let w :=
    {| Mock.api_key := None;
       Mock.accounts := [{| balance := 5000000%float; trc20 := [] |}];
       Mock.page := {| data := []; success := true; error := None |};
       Mock.broadcasts := [] |} in
  outcome (run Mock.handle (sendTrx "alice" "Tbob" 1%float None) w) = Fail config_error
  /\ outcome (run Mock.handle (drainTrx "alice" "Tbob" None) w) = Fail config_error.
Proof.
  intro w.
  destruct (transfers_missing_key Mock.world Mock.handle "Tbob" "TUSDT" "alice" 1%float 6
              None None w w w w (Mock.wallet "alice") None None
              eq_refl eq_refl eq_refl eq_refl) as (E1 & _ & E3 & _).
  split; [rewrite E1 | rewrite E3]; reflexivity.
Defined.

(* ================================================================= *)
(** ** Further properties: amounts *)

Lemma Qfloor_half (m : Z) : Qfloor (inject_Z m + (1 # 2)) = m.
Proof.
  unfold Qfloor, Qplus, inject_Z; simpl.
  replace (m * 2 + 1) with (1 + m * 2) by lia.
  rewrite Z.div_add by lia. reflexivity.
Qed.

(** The division of an integer by [10^6] has six decimals at most, so the
    rounding at twenty places leaves it as it is. *)
Lemma round_half_up_exact (z : Z) :
  BigNumber.round_half_up (inject_Z z / 1000000) = Qred (z # 1000000).
Proof.
  unfold BigNumber.round_half_up. apply Qred_complete.
  change (JS.pow10 BigNumber.DECIMAL_PLACES) with (inject_Z 100000000000000000000).
  assert (Q1 : (inject_Z z / 1000000 == z # 1000000)%Q).
  { unfold Qeq; simpl. lia. }
  assert (F : Qfloor (Qabs (inject_Z z / 1000000) * inject_Z 100000000000000000000 + (1 # 2))
              = Z.abs z * 100000000000000).
  { rewrite <- (Qfloor_half (Z.abs z * 100000000000000)).
    apply Qfloor_comp. apply Qplus_comp; [ | reflexivity].
    rewrite Q1. unfold Qeq; simpl. lia. }
  rewrite F.
  assert (N : BigNumber.is_neg (inject_Z z / 1000000) = (z <? 0)).
  { unfold BigNumber.is_neg; simpl. now rewrite Z.mul_1_r. }
  rewrite N. destruct (Z.ltb_spec z 0); unfold Qeq; simpl; lia.
Qed.

(** X5.  For a number of base units whose decimal text is an integer [z],
    [sunToTrx] is the double nearest to [z / 10^6]: the division is done
    exactly and only the final reading as a number rounds. *)
Theorem sunToTrx_exact (sun : JS.number) (z : Z) :
  BigNumber.of_number sun = BigNumber.Finite (inject_Z z) ->
  sunToTrx sun = JS.nearest (Qred (z # 1000000)).
Proof.
  intro H. unfold sunToTrx, BigNumber.toFixed. rewrite reserve_value, H.
  unfold BigNumber.div.
  change (Qeq_bool 1000000 0) with false. cbv iota.
  unfold BigNumber.parseFloat. f_equal. apply round_half_up_exact.
Qed.

(** 1,234,567 base units are 1.234567 coins. *)
Lemma sunToTrx_exact_witness : sunToTrx 1234567%float = 1.234567%float.
Proof.
  rewrite (sunToTrx_exact 1234567%float 1234567 ltac:(vm_compute; reflexivity)).
  vm_compute. reflexivity.
Defined.

Lemma scan_trc20_pair (contractAddress : string) (tokens : list TokenEntry) :
  trx (scan_trc20 contractAddress tokens) = sunToTrx (sun (scan_trc20 contractAddress tokens)).
Proof.
  induction tokens as [ | token rest IH]; simpl.
  - vm_compute. reflexivity.
  - destruct token as [ | [key amount] more]; [exact IH | ].
    destruct (key =? contractAddress)%string; [reflexivity | exact IH].
Qed.

Section Amounts.

Variable World : Type.
Variable handle : forall R : Type, Event R -> World -> (string + R) * World.

(** X6.  Every amount [getTrxBalance] or [getTRC20Balance] returns has
    its display value computed from its base units by the conversion of
    the native coin: [trx = sunToTrx sun], whatever the account holds
    and whatever [decimals] is given. *)
Theorem balances_are_pairs (address contractAddress : string) (decimals : Z)
    (network : option string) (w : World) (bal : Amount) :
  outcome (run handle (getTrxBalance address network) w) = Ok bal
  \/ outcome (run handle (getTRC20Balance address contractAddress decimals network) w)
     = Ok bal ->
  trx bal = sunToTrx (sun bal).
Proof.
  intros [H | H].
  - unfold getTrxBalance in H; cbv zeta in H. rewrite run_bind in H.
    destruct (outcome (run handle (requestTronGrid AccountsShape _ _ _ _) w))
      as [[ | account rest] | e]; simpl in H; inversion H; subst.
    + vm_compute. reflexivity.
    + reflexivity.
  - unfold getTRC20Balance in H; cbv zeta in H. rewrite run_bind in H.
    destruct (outcome (run handle (requestTronGrid AccountsShape _ _ _ _) w))
      as [[ | account rest] | e]; simpl in H; try discriminate H.
    + inversion H; subst. vm_compute. reflexivity.
    + destruct (trc20 account) as [ | token tokens] eqn:T; simpl in H;
        inversion H; subst.
      * vm_compute. reflexivity.
      * apply (scan_trc20_pair contractAddress (token :: tokens)).
Qed.

End Amounts.

(** An account with 2,500,000 base units: 2.5 coins. *)
Lemma balances_are_pairs_witness :
  outcome (run Mock.handle (getTrxBalance "Talice" None) (Mock.holding 2500000%float []))
  = Ok {| sun := 2500000%float; trx := 2.5%float |}
  /\ 2.5%float = sunToTrx 2500000%float.
Proof.
  assert (H : outcome (run Mock.handle (getTrxBalance "Talice" None)
                         (Mock.holding 2500000%float []))
              = Ok {| sun := 2500000%float; trx := 2.5%float |})
    by (vm_compute; reflexivity).
  split; [exact H | ].
  exact (balances_are_pairs Mock.world Mock.handle "Talice" "TUSDT" 6 None
           (Mock.holding 2500000%float []) _ (or_introl H)).
Defined.

(* ================================================================= *)
(** ** Further properties: the guard at its edges *)

Lemma of_number_zero : BigNumber.of_number 0%float = BigNumber.Finite 0.
Proof. vm_compute. reflexivity. Qed.

Lemma of_number_nan : BigNumber.of_number nan = BigNumber.NaN.
Proof. vm_compute. reflexivity. Qed.

Lemma one_coin : BigNumber.of_number (parseTrx 1%float) = BigNumber.Finite 1000000.
Proof. vm_compute. reflexivity. Qed.

Lemma gte_NaN_r (x : BigNumber.t) : BigNumber.gte x BigNumber.NaN = false.
Proof. destruct x; reflexivity. Qed.

Lemma lt_gte_Finite (a b : Q) :
  (a < b)%Q -> BigNumber.gte (BigNumber.Finite a) (BigNumber.Finite b) = false.
Proof. intro H. apply lt_not_gte, lt_Finite, H. Qed.

(** X7.  [parseTrx] never returns NaN or an infinity: when the product
    [d * 10^6] is not a finite number (NaN, an infinity, an overflow) it
    returns 0. *)
Theorem parseTrx_not_finite (d : JS.number) :
  (forall (s : bool) (m : positive) (e : Z),
     Prim2SF (d * 1000000)%float <> S754_finite s m e) ->
  parseTrx d = 0%float.
Proof.
  intro H. unfold parseTrx. rewrite Math_pow10_6. unfold JS.ToInt32, JS.truncate.
  destruct (Prim2SF (d * 1000000)%float) as [s | s | | s m e] eqn:E;
    [ | | | exfalso; exact (H s m e eq_refl)]; vm_compute; reflexivity.
Qed.

(** NaN coins and 10^305 coins, whose product overflows, are 0 base
    units. *)
Lemma parseTrx_not_finite_witness :
  parseTrx nan = 0%float /\ parseTrx 1e305%float = 0%float.
Proof.
  split.
  - apply parseTrx_not_finite. intros s m e H. vm_compute in H. discriminate H.
  - apply parseTrx_not_finite. intros s m e H. vm_compute in H. discriminate H.
Defined.

Section Edges.

Variable World : Type.
Variable handle : forall R : Type, Event R -> World -> (string + R) * World.

(** X8.  [sendTrx] does not refuse an amount that is not a number: with
    a positive balance, a request whose product [trx * 10^6] is not
    finite passes the guard as the amount 0, and a transaction of 0 base
    units is constructed and broadcast. *)
Theorem sendTrx_not_a_number (privateKey to : string) (trx : JS.number)
    (network : option string) (w0 w1 w2 w3 : World) (wallet : TronWallet)
    (latestBlock : LatestBlock) (bal : Amount) (t2 t3 : list Call) (b : Q) :
  handle _ (FromTronPrivateKey privateKey) w0 = (inr wallet, w1) ->
  run handle (getLatestBlock (Some (or_mainnet network))) w1 = MkRun (Ok latestBlock) w2 t2 ->
  run handle (getTrxBalance (getAddress wallet) (Some (or_mainnet network))) w2 =
    MkRun (Ok bal) w3 t3 ->
  (forall (s : bool) (m : positive) (e : Z),
     Prim2SF (trx * 1000000)%float <> S754_finite s m e) ->
  BigNumber.of_number (sun bal) = BigNumber.Finite b ->
  (0 < b)%Q ->
  run handle (sendTrx privateKey to trx network) w0 =
  after (Called (FromTronPrivateKey privateKey) :: t2 ++ t3)
    (run handle
       (transaction <- perform
          (GenerateTransaction wallet to (Plain (JNumber 0%float)) "TRX" latestBlock) ;;
        broadcastTransaction (Some (or_mainnet network)) transaction) w3).
Proof.
  intros H1 H2 H3 N B P.
  rewrite (sendTrx_run World handle privateKey to trx network _ _ _ _ _ _ _ _ _ H1 H2 H3).
  rewrite (parseTrx_not_finite trx N), of_number_zero, B.
  now rewrite (lt_gte_Finite 0 b P).
Qed.

(** X9.  The guard of [sendTRC20Token] does not fire on NaN: when the
    requested amount is NaN, or the fetched balance is NaN (the entry of
    the token holds a text [parseInt] cannot read), the transfer is
    constructed and broadcast whatever the amount. *)
Theorem sendTRC20Token_not_a_number (to contractAddress : string) (trx : JS.number)
    (privateKey : string) (decimals : Z) (network : option string)
    (w0 w1 w2 w3 : World) (wallet : TronWallet) (latestBlock : LatestBlock)
    (bal : Amount) (t2 t3 : list Call) :
  handle _ (FromTronPrivateKey privateKey) w0 = (inr wallet, w1) ->
  run handle (getLatestBlock (Some (or_mainnet network))) w1 = MkRun (Ok latestBlock) w2 t2 ->
  run handle (getTRC20Balance (getAddress wallet) contractAddress decimals
                (Some (or_mainnet network))) w2 = MkRun (Ok bal) w3 t3 ->
  (trx * JS.Math_pow10 decimals)%float = nan \/ sun bal = nan ->
  run handle (sendTRC20Token to contractAddress trx privateKey decimals network) w0 =
  after (Called (FromTronPrivateKey privateKey) :: t2 ++ t3)
    (run handle
       (transaction <- perform
          (TransferTRC20Token wallet contractAddress to
             (Plain (JNumber (trx * JS.Math_pow10 decimals)%float)) latestBlock) ;;
        broadcastTransaction (Some (or_mainnet network)) transaction) w3).
Proof.
  intros H1 H2 H3 N.
  rewrite (sendTRC20Token_run World handle to contractAddress trx privateKey decimals
             network _ _ _ _ _ _ _ _ _ H1 H2 H3).
  assert (G : BigNumber.gte (BigNumber.of_number (trx * JS.Math_pow10 decimals)%float)
                (BigNumber.of_number (sun bal)) = false).
  { destruct N as [N | N]; rewrite N, of_number_nan.
    - reflexivity.
    - apply gte_NaN_r. }
  now rewrite G.
Qed.

(** X10.  An address the API has no record of cannot send: for a
    requested amount of zero or more base units, [sendTrx] and
    [sendTRC20Token] find the balance 0 and fail with "Insufficient
    balance"; nothing is constructed. *)
Theorem unknown_account_cannot_send :
  (forall (privateKey to : string) (trx : JS.number) (network : option string)
      (w0 w1 w2 w3 : World) (wallet : TronWallet) (latestBlock : LatestBlock)
      (t2 t3 : list Call) (a : Q),
    handle _ (FromTronPrivateKey privateKey) w0 = (inr wallet, w1) ->
    run handle (getLatestBlock (Some (or_mainnet network))) w1 =
      MkRun (Ok latestBlock) w2 t2 ->
    run handle
      (requestTronGrid AccountsShape (Some (or_mainnet network))
         ("v1/accounts/" ++ getAddress wallet) "get" None) w2 = MkRun (Ok []) w3 t3 ->
    BigNumber.of_number (parseTrx trx) = BigNumber.Finite a ->
    (0 <= a)%Q ->
    run handle (sendTrx privateKey to trx network) w0 =
    MkRun (Fail insufficient_balance) w3
      (Called (FromTronPrivateKey privateKey) :: t2 ++ t3))
  /\
  (forall (to contractAddress : string) (trx : JS.number) (privateKey : string)
      (decimals : Z) (network : option string)
      (w0 w1 w2 w3 : World) (wallet : TronWallet) (latestBlock : LatestBlock)
      (t2 t3 : list Call) (a : Q),
    handle _ (FromTronPrivateKey privateKey) w0 = (inr wallet, w1) ->
    run handle (getLatestBlock (Some (or_mainnet network))) w1 =
      MkRun (Ok latestBlock) w2 t2 ->
    run handle
      (requestTronGrid AccountsShape (Some (or_mainnet network))
         ("v1/accounts/" ++ getAddress wallet) "get" None) w2 = MkRun (Ok []) w3 t3 ->
    BigNumber.of_number (trx * JS.Math_pow10 decimals)%float = BigNumber.Finite a ->
    (0 <= a)%Q ->
    run handle (sendTRC20Token to contractAddress trx privateKey decimals network) w0 =
    MkRun (Fail insufficient_balance) w3
      (Called (FromTronPrivateKey privateKey) :: t2 ++ t3)).
Proof.
  split.
  - intros privateKey to trx network w0 w1 w2 w3 wallet latestBlock t2 t3 a
      H1 H2 R A P.
    assert (H3 : run handle
                   (getTrxBalance (getAddress wallet) (Some (or_mainnet network))) w2
                 = MkRun (Ok zero_amount) w3 t3).
    { unfold getTrxBalance; cbv zeta. simpl or_mainnet.
      erewrite run_bind_ok by exact R. simpl.
      unfold after; simpl. now rewrite app_nil_r. }
    rewrite (sendTrx_run World handle privateKey to trx network _ _ _ _ _ _ _ _ _ H1 H2 H3).
    simpl sun. rewrite A, of_number_zero.
    rewrite (proj2 (gte_Finite a 0) P).
    unfold after; simpl. now rewrite app_nil_r.
  - intros to contractAddress trx privateKey decimals network w0 w1 w2 w3 wallet
      latestBlock t2 t3 a H1 H2 R A P.
    assert (H3 : run handle
                   (getTRC20Balance (getAddress wallet) contractAddress decimals
                      (Some (or_mainnet network))) w2
                 = MkRun (Ok zero_amount) w3 t3).
    { unfold getTRC20Balance; cbv zeta. simpl or_mainnet.
      erewrite run_bind_ok by exact R. simpl.
      unfold after; simpl. now rewrite app_nil_r. }
    rewrite (sendTRC20Token_run World handle to contractAddress trx privateKey decimals
               network _ _ _ _ _ _ _ _ _ H1 H2 H3).
    simpl sun. rewrite A, of_number_zero.
    rewrite (proj2 (gte_Finite a 0) P).
    unfold after; simpl. now rewrite app_nil_r.
Qed.

End Edges.

(** A request for NaN coins from an account of 5,000,000 base units is
    broadcast. *)
Lemma sendTrx_not_a_number_witness :
  Mock.broadcasts
    (final (run Mock.handle (sendTrx "alice" "Tbob" nan None)
              (Mock.holding 5000000%float []))) = ["0a02"].
Proof.
  set (w := Mock.holding 5000000%float []).
  pose (t2 := calls (run Mock.handle (getLatestBlock (Some "mainnet")) w)).
  pose (t3 := calls (run Mock.handle (getTrxBalance "Talice" (Some "mainnet")) w)).
  assert (H1 : Mock.handle _ (FromTronPrivateKey "alice") w = (inr (Mock.wallet "alice"), w))
    by reflexivity.
  assert (H2 : run Mock.handle (getLatestBlock (Some (or_mainnet None))) w
               = MkRun (Ok Mock.latest) w t2) by (vm_compute; reflexivity).
  assert (H3 : run Mock.handle
                 (getTrxBalance (getAddress (Mock.wallet "alice")) (Some (or_mainnet None))) w
               = MkRun (Ok {| sun := 5000000%float; trx := 5%float |}) w t3)
    by (vm_compute; reflexivity).
  assert (N : forall (s : bool) (m : positive) (e : Z),
            Prim2SF (nan * 1000000)%float <> S754_finite s m e).
  { intros s m e H. vm_compute in H. discriminate H. }
  assert (B : BigNumber.of_number 5000000%float = BigNumber.Finite 5000000)
    by (vm_compute; reflexivity).
  assert (P : (0 < 5000000)%Q) by reflexivity.
  rewrite (sendTrx_not_a_number Mock.world Mock.handle "alice" "Tbob" nan None
             _ _ _ _ _ _ _ _ _ _ H1 H2 H3 N B P).
  vm_compute. reflexivity.
Defined.

(** A token whose entry reads ["n/a"]: a million tokens are sent. *)
Lemma sendTRC20Token_not_a_number_witness :
  Mock.broadcasts
    (final (run Mock.handle (sendTRC20Token "Tbob" "TUSDT" 1000000%float "alice" 6 None)
              (Mock.holding 0%float [[("TUSDT", "n/a")]]))) = ["0a03"].
Proof.
  set (w := Mock.holding 0%float [[("TUSDT", "n/a")]]).
  pose (t2 := calls (run Mock.handle (getLatestBlock (Some "mainnet")) w)).
  pose (t3 := calls (run Mock.handle
                       (getTRC20Balance "Talice" "TUSDT" 6 (Some "mainnet")) w)).
  assert (H1 : Mock.handle _ (FromTronPrivateKey "alice") w = (inr (Mock.wallet "alice"), w))
    by reflexivity.
  assert (H2 : run Mock.handle (getLatestBlock (Some (or_mainnet None))) w
               = MkRun (Ok Mock.latest) w t2) by (vm_compute; reflexivity).
  assert (H3 : run Mock.handle
                 (getTRC20Balance (getAddress (Mock.wallet "alice")) "TUSDT" 6
                    (Some (or_mainnet None))) w
               = MkRun (Ok {| sun := nan; trx := nan |}) w t3)
    by (vm_compute; reflexivity).
  rewrite (sendTRC20Token_not_a_number Mock.world Mock.handle "Tbob" "TUSDT" 1000000%float
             "alice" 6 None _ _ _ _ _ _ _ _ _ H1 H2 H3 (or_intror eq_refl)).
  vm_compute. reflexivity.
Defined.

(** An address without a record asks to send one coin. *)
Lemma unknown_account_cannot_send_witness :
  let w :=
    {| Mock.api_key := Some "key"; Mock.accounts := [];
       Mock.page := {| data := []; success := true; error := None |};
       Mock.broadcasts := [] |} in
  outcome (run Mock.handle (sendTrx "alice" "Tbob" 1%float None) w)
  = Fail insufficient_balance
  /\ outcome (run Mock.handle (sendTRC20Token "Tbob" "TUSDT" 1%float "alice" 6 None) w)
     = Fail insufficient_balance.
Proof.
  intro w.
  pose (t2 := calls (run Mock.handle (getLatestBlock (Some "mainnet")) w)).
  pose (t3 := calls (run Mock.handle (getTrxBalance "Talice" (Some "mainnet")) w)).
  assert (H1 : Mock.handle _ (FromTronPrivateKey "alice") w = (inr (Mock.wallet "alice"), w))
    by reflexivity.
  assert (H2 : run Mock.handle (getLatestBlock (Some (or_mainnet None))) w
               = MkRun (Ok Mock.latest) w t2) by (vm_compute; reflexivity).
  assert (R : run Mock.handle
                (requestTronGrid AccountsShape (Some (or_mainnet None))
                   ("v1/accounts/" ++ getAddress (Mock.wallet "alice")) "get" None) w
              = MkRun (Ok []) w t3) by (vm_compute; reflexivity).
  assert (P : (0 <= 1000000)%Q) by discriminate.
  split.
  - rewrite (proj1 (unknown_account_cannot_send Mock.world Mock.handle)
               "alice" "Tbob" 1%float None _ _ _ _ _ _ _ _ 1000000%Q H1 H2 R
               ltac:(vm_compute; reflexivity) P).
    reflexivity.
  - rewrite (proj2 (unknown_account_cannot_send Mock.world Mock.handle)
               "Tbob" "TUSDT" 1%float "alice" 6 None _ _ _ _ _ _ _ _ 1000000%Q H1 H2 R
               ltac:(vm_compute; reflexivity) P).
    reflexivity.
Defined.

(* ================================================================= *)
(** ** Further properties: the drain of a token *)


Lemma drainTRC20Token_alone_throws (to contractAddress privateKey : string)
    (decimals : Z) (network backer : option string) :
  JS.truthy backer = false ->
  throws_only is_config_error
    (drainTRC20Token to contractAddress privateKey decimals network backer).
Proof.
  intro F. unfold drainTRC20Token; cbv zeta.
  apply throws_only_bind; [intro r; exact I | intro wallet].
  apply throws_only_bind; [apply getLatestBlock_throws | intro latestBlock].
  apply throws_only_bind; [apply getTRC20Balance_throws | intro bal].
  apply throws_only_bind.
  - destruct backer as [key | ]; [rewrite F | ]; exact I.
  - intros _.
    apply throws_only_bind; [intro r; exact I | intro transaction].
    apply throws_only_bind; [apply broadcastTransaction_throws | intro trx; exact I].
Qed.

Lemma sendTRC20Token_calls (to contractAddress : string) (trx : JS.number)
    (privateKey : string) (decimals : Z) (network : option string) :
  calls_only (fun c => ~ is_generateTransaction c)
    (sendTRC20Token to contractAddress trx privateKey decimals network).
Proof.
  unfold sendTRC20Token; cbv zeta.
  apply calls_only_bind; [split; [simpl; tauto | intro r; exact I] | intro wallet].
  apply calls_only_bind;
    [eapply calls_only_weaken; [apply gateway_not_generate | apply getLatestBlock_calls]
    | intro latestBlock].
  apply calls_only_bind;
    [eapply calls_only_weaken; [apply gateway_not_generate | apply getTRC20Balance_calls]
    | intro bal].
  destruct (BigNumber.gte _ _); [exact I | ].
  apply calls_only_bind; [split; [simpl; tauto | intro r; exact I] | intro transaction].
  eapply calls_only_weaken; [apply gateway_not_generate | apply broadcastTransaction_calls].
Qed.

Lemma drainTrx_calls (privateKey to : string) (network : option string) :
  calls_only (fun c => ~ is_transferTRC20Token c) (drainTrx privateKey to network).
Proof.
  unfold drainTrx; cbv zeta.
  apply calls_only_bind; [split; [simpl; tauto | intro r; exact I] | intro wallet].
  apply calls_only_bind;
    [eapply calls_only_weaken; [apply gateway_not_transfer | apply getLatestBlock_calls]
    | intro latestBlock].
  apply calls_only_bind;
    [eapply calls_only_weaken; [apply gateway_not_transfer | apply getTrxBalance_calls]
    | intro bal].
  apply calls_only_bind; [split; [simpl; tauto | intro r; exact I] | intro transaction].
  apply calls_only_bind;
    [eapply calls_only_weaken; [apply gateway_not_transfer | apply broadcastTransaction_calls]
    | intro trx; exact I].
Qed.

Section TokenDrain.

Variable World : Type.
Variable handle : forall R : Type, Event R -> World -> (string + R) * World.

(** X11.  Without a backer [drainTRC20Token] sends the whole token
    balance it fetched, with no reserve and no guard: no run of it ends
    with "Insufficient balance"; the token transfer is constructed with
    the fetched balance, broadcast, and the result is the receipt with
    [amount] set to that balance. *)
Theorem drainTRC20Token_whole_balance (backer : option string) :
  JS.truthy backer = false ->
  (forall (to contractAddress privateKey : string) (decimals : Z)
      (network : option string) (w0 : World),
     outcome (run handle
                (drainTRC20Token to contractAddress privateKey decimals network backer) w0)
     <> Fail insufficient_balance)
  /\
  (forall (to contractAddress privateKey : string) (decimals : Z)
      (network : option string) (w0 w1 w2 w3 w4 w5 : World)
      (wallet : TronWallet) (latestBlock : LatestBlock) (bal : Amount)
      (transaction : Transaction) (trx : object) (t2 t3 t5 : list Call),
    let construct :=
      TransferTRC20Token wallet contractAddress to (Plain (JNumber (sun bal))) latestBlock in
    handle _ (FromTronPrivateKey privateKey) w0 = (inr wallet, w1) ->
    run handle (getLatestBlock (Some (or_mainnet network))) w1 =
      MkRun (Ok latestBlock) w2 t2 ->
    run handle (getTRC20Balance (getAddress wallet) contractAddress decimals
                  (Some (or_mainnet network))) w2 = MkRun (Ok bal) w3 t3 ->
    handle _ construct w3 = (inr transaction, w4) ->
    run handle (broadcastTransaction (Some (or_mainnet network)) transaction) w4 =
      MkRun (Ok trx) w5 t5 ->
    run handle (drainTRC20Token to contractAddress privateKey decimals network backer) w0
    = MkRun (Ok (with_amount trx (Plain (JNumber (sun bal))))) w5
        (Called (FromTronPrivateKey privateKey) :: t2 ++ t3 ++ Called construct :: t5)
    /\ get_field "amount" (with_amount trx (Plain (JNumber (sun bal))))
       = Some (Plain (JNumber (sun bal)))).
Proof.
  intro F. split.
  - intros to contractAddress privateKey decimals network w0 H.
    apply run_throws_only with (P := is_config_error) in H.
    + discriminate H.
    + now apply drainTRC20Token_alone_throws.
  - intros to contractAddress privateKey decimals network w0 w1 w2 w3 w4 w5 wallet
      latestBlock bal transaction trx t2 t3 t5 construct H1 H2 H3 H4 H5.
    split; [ | apply with_amount_fields].
    rewrite (drainTRC20Token_run World handle to contractAddress privateKey decimals
               network backer _ _ _ _ _ _ _ _ _ H1 H2 H3).
    assert (E : match backer with
                | Some key =>
                    if JS.truthy backer then
                      sender <- importTrxAddress privateKey ;;
                      _ <- sendTrx key (address sender) 1%float
                             (Some (or_mainnet network)) ;;
                      Ret tt
                    else Ret tt
                | None => Ret tt
                end = Ret tt).
    { destruct backer as [key | ]; [rewrite F | ]; reflexivity. }
    rewrite E. cbn [bind]. fold construct.
    erewrite run_bind_ok by (apply run_perform_ok; exact H4).
    erewrite run_bind_ok by exact H5.
    unfold after; simpl. rewrite app_nil_r, <- app_assoc. reflexivity.
Qed.

(** X12.  The backer has to hold more than one coin: when the backer's
    balance is at most 1,000,000 base units, the funding transfer is
    refused and [drainTRC20Token] fails with "Insufficient balance"
    after the backer's balance is fetched; neither a native nor a token
    transaction is constructed. *)
Theorem backer_needs_more_than_one_coin (to contractAddress privateKey key : string)
    (decimals : Z) (network : option string) (w0 w1 w2 w3 w4 w5 w6 w7 : World)
    (wallet sender funder : TronWallet) (latestBlock block : LatestBlock)
    (bal held : Amount) (t2 t3 u2 u3 : list Call) (b : Q) :
  key <> "" ->
  handle _ (FromTronPrivateKey privateKey) w0 = (inr wallet, w1) ->
  run handle (getLatestBlock (Some (or_mainnet network))) w1 = MkRun (Ok latestBlock) w2 t2 ->
  run handle (getTRC20Balance (getAddress wallet) contractAddress decimals
                (Some (or_mainnet network))) w2 = MkRun (Ok bal) w3 t3 ->
  handle _ (FromTronPrivateKey privateKey) w3 = (inr sender, w4) ->
  handle _ (FromTronPrivateKey key) w4 = (inr funder, w5) ->
  run handle (getLatestBlock (Some (or_mainnet network))) w5 = MkRun (Ok block) w6 u2 ->
  run handle (getTrxBalance (getAddress funder) (Some (or_mainnet network))) w6 =
    MkRun (Ok held) w7 u3 ->
  BigNumber.of_number (sun held) = BigNumber.Finite b ->
  (b <= 1000000)%Q ->
  let trace :=
    (Called (FromTronPrivateKey privateKey) :: t2 ++ t3
     ++ Called (FromTronPrivateKey privateKey)
     :: Called (FromTronPrivateKey key) :: u2 ++ u3)%list in
  run handle
    (drainTRC20Token to contractAddress privateKey decimals network (Some key)) w0
  = MkRun (Fail insufficient_balance) w7 trace
  /\ Forall (fun c => ~ is_generateTransaction c /\ ~ is_transferTRC20Token c) trace.
Proof.
  intros Hkey H1 H2 H3 H4 K1 K2 K3 B L trace.
  assert (S : run handle
                (sendTrx key (getAddress sender) 1%float (Some (or_mainnet network))) w4
              = MkRun (Fail insufficient_balance) w7
                  (Called (FromTronPrivateKey key) :: u2 ++ u3)).
  { rewrite (sendTrx_run World handle key (getAddress sender) 1%float
               (Some (or_mainnet network)) _ _ _ _ _ _ _ _ _ K1 K2 K3).
    rewrite one_coin, B, (proj2 (gte_Finite 1000000 b) L).
    unfold after; simpl. now rewrite app_nil_r. }
  split.
  - rewrite (drainTRC20Token_run World handle to contractAddress privateKey decimals
               network (Some key) _ _ _ _ _ _ _ _ _ H1 H2 H3).
    assert (T : JS.truthy (Some key) = true).
    { simpl. destruct (String.eqb_spec key ""); [contradiction | reflexivity]. }
    rewrite T.
    rewrite run_bind.
    erewrite (run_bind_ok _ _ _ _ (importTrxAddress privateKey))
      by (apply importTrxAddress_run; exact H4).
    simpl address. rewrite run_bind, S. simpl.
    unfold after, trace; simpl. now rewrite <- app_assoc.
  - assert (G : forall l : list Call,
              Forall is_gateway l ->
              Forall (fun c => ~ is_generateTransaction c /\ ~ is_transferTRC20Token c) l).
    { intros l Hl. eapply Forall_impl; [ | exact Hl].
      intros c Hc. split; [now apply gateway_not_generate | now apply gateway_not_transfer]. }
    unfold trace. constructor; [simpl; tauto | ].
    apply Forall_app; split; [ | apply Forall_app; split].
    + apply G.
      replace t2 with (calls (run handle (getLatestBlock (Some (or_mainnet network))) w1))
        by now rewrite H2.
      apply run_calls_only, getLatestBlock_calls.
    + apply G.
      replace t3 with
        (calls (run handle (getTRC20Balance (getAddress wallet) contractAddress decimals
                              (Some (or_mainnet network))) w2)) by now rewrite H3.
      apply run_calls_only, getTRC20Balance_calls.
    + constructor; [simpl; tauto | ]. constructor; [simpl; tauto | ].
      apply Forall_app; split; apply G.
      * replace u2 with (calls (run handle (getLatestBlock (Some (or_mainnet network))) w5))
          by now rewrite K2.
        apply run_calls_only, getLatestBlock_calls.
      * replace u3 with
          (calls (run handle (getTrxBalance (getAddress funder)
                                (Some (or_mainnet network))) w6)) by now rewrite K3.
        apply run_calls_only, getTrxBalance_calls.
Qed.

(** X13.  A transfer keeps to its asset: in every run, [sendTrx] and
    [drainTrx] never ask the wallet library for a token transfer, and
    [sendTRC20Token] never asks it for a native transaction. *)
Theorem transfers_keep_to_their_asset (to contractAddress privateKey : string)
    (trx : JS.number) (decimals : Z) (network : option string) (w : World) :
  Forall (fun c => ~ is_transferTRC20Token c)
    (calls (run handle (sendTrx privateKey to trx network) w))
  /\ Forall (fun c => ~ is_transferTRC20Token c)
       (calls (run handle (drainTrx privateKey to network) w))
  /\ Forall (fun c => ~ is_generateTransaction c)
       (calls (run handle
                 (sendTRC20Token to contractAddress trx privateKey decimals network) w)).
Proof.
  split; [ | split]; apply run_calls_only.
  - apply sendTrx_calls.
  - apply drainTrx_calls.
  - apply sendTRC20Token_calls.
Qed.

End TokenDrain.

(** A token balance of 12,345,678 base units is drained whole. *)
Lemma drainTRC20Token_whole_balance_witness :
  outcome (run Mock.handle (drainTRC20Token "Tbob" "TUSDT" "alice" 6 None None)
             (Mock.holding 0%float [[("TUSDT", "12345678")]]))
  = Ok [("result", Plain (JBool true)); ("txid", Plain (JString "a1b2"));
        ("amount", Plain (JNumber 12345678%float))].
Proof.
  set (w := Mock.holding 0%float [[("TUSDT", "12345678")]]).
  pose (bal := {| sun := 12345678%float; trx := sunToTrx 12345678%float |}).
  pose (sent := run Mock.handle (broadcastTransaction (Some "mainnet") {| hex := "0a03" |}) w).
  pose (t2 := calls (run Mock.handle (getLatestBlock (Some "mainnet")) w)).
  pose (t3 := calls (run Mock.handle
                       (getTRC20Balance "Talice" "TUSDT" 6 (Some "mainnet")) w)).
  assert (H1 : Mock.handle _ (FromTronPrivateKey "alice") w = (inr (Mock.wallet "alice"), w))
    by reflexivity.
  assert (H2 : run Mock.handle (getLatestBlock (Some (or_mainnet None))) w
               = MkRun (Ok Mock.latest) w t2) by (vm_compute; reflexivity).
  assert (H3 : run Mock.handle
                 (getTRC20Balance (getAddress (Mock.wallet "alice")) "TUSDT" 6
                    (Some (or_mainnet None))) w = MkRun (Ok bal) w t3)
    by (vm_compute; reflexivity).
  assert (H4 : Mock.handle _
                 (TransferTRC20Token (Mock.wallet "alice") "TUSDT" "Tbob"
                    (Plain (JNumber (sun bal))) Mock.latest) w
               = (inr {| hex := "0a03" |}, w)) by reflexivity.
  assert (H5 : run Mock.handle (broadcastTransaction (Some (or_mainnet None))
                                  {| hex := "0a03" |}) w
               = MkRun (Ok Mock.receipt) (final sent) (calls sent))
    by (vm_compute; reflexivity).
  destruct (proj2 (drainTRC20Token_whole_balance Mock.world Mock.handle None eq_refl)
              "Tbob" "TUSDT" "alice" 6 None _ _ _ _ _ _ _ _ _ _ _ _ _ _
              H1 H2 H3 H4 H5) as (E & _).
  rewrite E. vm_compute. reflexivity.
Defined.

(** A backer holding exactly one coin: the drain is refused and nothing
    is broadcast. *)
Lemma backer_needs_more_than_one_coin_witness :
  let w := Mock.holding 1000000%float [[("TUSDT", "12345678")]] in
  let drained :=
    run Mock.handle (drainTRC20Token "Tbob" "TUSDT" "alice" 6 None (Some "backer")) w in
  outcome drained = Fail insufficient_balance /\ Mock.broadcasts (final drained) = [].
Proof.
  intros w drained.
  pose (bal := {| sun := 12345678%float; trx := sunToTrx 12345678%float |}).
  pose (held := {| sun := 1000000%float; trx := 1%float |}).
  pose (t2 := calls (run Mock.handle (getLatestBlock (Some "mainnet")) w)).
  pose (t3 := calls (run Mock.handle
                       (getTRC20Balance "Talice" "TUSDT" 6 (Some "mainnet")) w)).
  pose (u3 := calls (run Mock.handle (getTrxBalance "Tbacker" (Some "mainnet")) w)).
  assert (K : "backer" <> "") by discriminate.
  assert (H1 : Mock.handle _ (FromTronPrivateKey "alice") w = (inr (Mock.wallet "alice"), w))
    by reflexivity.
  assert (H2 : run Mock.handle (getLatestBlock (Some (or_mainnet None))) w
               = MkRun (Ok Mock.latest) w t2) by (vm_compute; reflexivity).
  assert (H3 : run Mock.handle
                 (getTRC20Balance (getAddress (Mock.wallet "alice")) "TUSDT" 6
                    (Some (or_mainnet None))) w = MkRun (Ok bal) w t3)
    by (vm_compute; reflexivity).
  assert (K1 : Mock.handle _ (FromTronPrivateKey "backer") w
               = (inr (Mock.wallet "backer"), w)) by reflexivity.
  assert (K3 : run Mock.handle
                 (getTrxBalance (getAddress (Mock.wallet "backer"))
                    (Some (or_mainnet None))) w = MkRun (Ok held) w u3)
    by (vm_compute; reflexivity).
  assert (B : BigNumber.of_number (sun held) = BigNumber.Finite 1000000)
    by (vm_compute; reflexivity).
  assert (L : (1000000 <= 1000000)%Q) by discriminate.
  destruct (backer_needs_more_than_one_coin Mock.world Mock.handle
              "Tbob" "TUSDT" "alice" "backer" 6 None _ _ _ _ _ _ _ _ _ _ _ _ _ _ _
              _ _ _ _ _ K H1 H2 H3 H1 K1 H2 K3 B L) as (E & _).
  unfold drained. rewrite E. split; reflexivity.
Defined.

(* ================================================================= *)
(** ** Further properties: errors, paths and whole coins *)



Section Errors.

Variable World : Type.
Variable handle : forall R : Type, Event R -> World -> (string + R) * World.


End Errors.


Lemma append_inj (p a b : string) : p ++ a = p ++ b -> a = b.
Proof.
  induction p as [ | c p IH]; simpl; intro H.
  - exact H.
  - injection H as H. exact (IH H).
Qed.

Lemma prefix_append (p s : string) : String.prefix p (p ++ s) = true.
Proof.
  induction p as [ | c p IH]; simpl.
  - destruct s; reflexivity.
  - destruct (ascii_dec c c) as [_ | N]; [exact IH | now elim N].
Qed.

(** X15.  Every derivation path starts with [m/49'/194'/0'/0/], and two
    account indexes that differ have paths that differ. *)
Theorem getPath_injective :
  (forall index : N, String.prefix "m/49'/194'/0'/0/" (getPath index) = true)
  /\ (forall i j : N, getPath i = getPath j -> i = j).
Proof.
  split.
  - intro index. apply prefix_append.
  - intros i j H. unfold getPath in H. apply append_inj in H.
    apply DecimalN.Unsigned.to_uint_inj.
    apply (f_equal NilEmpty.uint_of_string) in H.
    rewrite !NilEmpty.usu in H. now injection H.
Qed.

(** The paths of the accounts 0 and 1 differ. *)
Lemma getPath_injective_witness :
  getPath 0 = "m/49'/194'/0'/0/0" /\ getPath 1 = "m/49'/194'/0'/0/1"
  /\ getPath 0 <> getPath 1.
Proof.
  split; [reflexivity | split; [reflexivity | ]].
  intro H. apply (proj2 getPath_injective 0%N 1%N) in H. discriminate H.
Defined.

Lemma whole_coins_checked : forallb whole_coin_ok (map Z.of_nat (seq 0 2148)) = true.
Proof. vm_compute. reflexivity. Qed.

(** X16.  For whole coins the round trip holds: for every [k] from 0 to
    2147, the base units [k * 10^6] converted to display units and back
    by [parseTrx] are [k * 10^6] again. *)
Theorem whole_coins_round_trip (k : Z) :
  0 <= k <= 2147 ->
  parseTrx (sunToTrx (JS.of_Z (k * 1000000))) = JS.of_Z (k * 1000000).
Proof.
  intro H.
  assert (I : In k (map Z.of_nat (seq 0 2148))).
  { rewrite <- (Z2Nat.id k) by lia. apply in_map, in_seq. lia. }
  pose proof (proj1 (forallb_forall _ _) whole_coins_checked k I) as C.
  unfold whole_coin_ok in C. apply Z.eqb_eq in C.
  unfold parseTrx. rewrite Math_pow10_6. now rewrite C.
Qed.

(** 2147 coins, the most a signed 32-bit amount of base units holds. *)
Lemma whole_coins_round_trip_witness :
  parseTrx (sunToTrx 2147000000%float) = 2147000000%float.
Proof.
  assert (H : 0 <= 2147 <= 2147) by lia.
  pose proof (whole_coins_round_trip 2147 H) as E.
  vm_compute JS.of_Z in E. exact E.
Defined.

(** X17.  Beyond the signed 32-bit range the amount turns negative: when
    the integer part of [d * 10^6] is from [2^31] up to [2^32 - 1], that is
    from 2147.483648 coins to under 4294.967296, [parseTrx d] is that
    integer part less [2^32], a negative number of base units. *)
Theorem parseTrx_wraps_negative (d : JS.number) :
  2 ^ 31 <= JS.truncate (d * 1000000)%float < 2 ^ 32 ->
  parseTrx d = JS.of_Z (JS.truncate (d * 1000000)%float - 2 ^ 32)
  /\ JS.truncate (d * 1000000)%float - 2 ^ 32 < 0.
Proof.
  intro H. split; [ | lia].
  unfold parseTrx. rewrite Math_pow10_6. f_equal.
  unfold JS.ToInt32. set (z := JS.truncate (d * 1000000)%float) in *.
  rewrite Z.mod_small by lia.
  destruct (Z.leb_spec (2 ^ 31) z); lia.
Qed.

(** 3000 coins are read as -1,294,967,296 base units. *)
Lemma parseTrx_wraps_negative_witness : parseTrx 3000%float = (-1294967296)%float.
Proof.
  assert (T : JS.truncate (3000 * 1000000)%float = 3000000000)
    by (vm_compute; reflexivity).
  destruct (parseTrx_wraps_negative 3000%float) as (E & _).
  - rewrite T. lia.
  - rewrite E. vm_compute. reflexivity.
Defined.
